(** * AMC problem scraper: the extraction and segmentation engine of [scraper.py]

    A shallow embedding of [AMCScraper.extract_content_with_images],
    [AMCScraper.extract_problem] and [AMCScraper.extract_solutions], together
    with the pieces of Python's [str], [re] and BeautifulSoup navigation they
    call, and the properties of the engine stated against that embedding.

    Text is modelled as [string] over 8-bit characters: the ASCII part of
    Python's [str].  Characters above 127 are kept as they are, they are
    neither whitespace, nor digits, nor letters with a case. *)

From Stdlib Require Import Bool Arith ZArith Lia List Ascii String DecimalString.
From Stdlib Require Import Sorted Permutation.
Import ListNotations.
Local Open Scope string_scope.
Local Open Scope list_scope.
Local Open Scope nat_scope.

Set Implicit Arguments.

(** ** Python [str] *)

Module PyStr.

(** A string is "truthy" when it is not empty. *)
Definition truthy (s : string) : bool :=
  match s with EmptyString => false | String _ _ => true end.

(** [str.isspace] on one ASCII character: TAB, LF, VT, FF, CR, FS, GS, RS,
    US and the space.  [re]'s [\s] uses the same table on [str] patterns. *)
Definition is_space (c : ascii) : bool :=
  let n := nat_of_ascii c in
  ((9 <=? n) && (n <=? 13)) || ((28 <=? n) && (n <=? 32)).

Definition is_digit (c : ascii) : bool :=
  let n := nat_of_ascii c in (48 <=? n) && (n <=? 57).

Definition is_upper (c : ascii) : bool :=
  let n := nat_of_ascii c in (65 <=? n) && (n <=? 90).

Definition is_lower (c : ascii) : bool :=
  let n := nat_of_ascii c in (97 <=? n) && (n <=? 122).

Definition lower_char (c : ascii) : ascii :=
  if is_upper c then ascii_of_nat (nat_of_ascii c + 32) else c.

Definition upper_char (c : ascii) : ascii :=
  if is_lower c then ascii_of_nat (nat_of_ascii c - 32) else c.

(** [s.lower()] *)
Fixpoint lower (s : string) : string :=
  match s with
  | EmptyString => EmptyString
  | String c s' => String (lower_char c) (lower s')
  end.

Fixpoint lstrip (s : string) : string :=
  match s with
  | EmptyString => EmptyString
  | String c s' => if is_space c then lstrip s' else s
  end.

Fixpoint rstrip (s : string) : string :=
  match s with
  | EmptyString => EmptyString
  | String c s' =>
      let r := rstrip s' in
      if is_space c && negb (truthy r) then EmptyString else String c r
  end.

(** [s.strip()] *)
Definition strip (s : string) : string := rstrip (lstrip s).

(** [s.startswith(p)] *)
Fixpoint startswith (s p : string) : bool :=
  match p, s with
  | EmptyString, _ => true
  | String a p', String b s' => Ascii.eqb a b && startswith s' p'
  | String _ _, EmptyString => false
  end.

(** [needle in hay] *)
Fixpoint contains (needle hay : string) : bool :=
  startswith hay needle ||
  match hay with
  | EmptyString => false
  | String _ hay' => contains needle hay'
  end.

(** [sep.join(parts)] *)
Fixpoint join (sep : string) (parts : list string) : string :=
  match parts with
  | [] => EmptyString
  | [p] => p
  | p :: rest => (p ++ sep ++ join sep rest)%string
  end.

(** [name in [n1, n2, ...]] *)
Definition mem (s : string) (l : list string) : bool :=
  existsb (String.eqb s) l.

(** [str(i)] for a non-negative integer, as f-strings format it. *)
Definition of_nat (n : nat) : string :=
  NilEmpty.string_of_uint (Nat.to_uint n).

(** [int(s)] on a run of decimal digits, as [\d+] delivers it. *)
Definition digit_value (c : ascii) : nat := nat_of_ascii c - 48.

Fixpoint int_acc (acc : nat) (s : string) : nat :=
  match s with
  | EmptyString => acc
  | String c s' => int_acc (10 * acc + digit_value c) s'
  end.

Definition int (s : string) : nat := int_acc 0 s.

End PyStr.

(** ** Python [re]: a backtracking matcher for the constructs the scraper uses

    Literals, character classes, quantified single characters (greedy and
    lazy), concatenation, ordered alternation, capture groups, positive
    lookahead and the end anchor.  Alternatives are tried left to right, a
    greedy quantifier tries the longest run first, a lazy one the shortest,
    and a lookahead does not let the match backtrack into it: the order in
    which [re] explores, so that the first match found is the one [re]
    reports. *)

Module Re.

Definition charset := ascii -> bool.

Inductive regex : Type :=
| Eps
| Chr (c : ascii)
| Cls (cs : charset)
| Rep (cs : charset) (lo : nat) (hi : option nat) (greedy : bool)
| Cat (r1 r2 : regex)
| Alt (r1 r2 : regex)
| Grp (i : nat) (r : regex)
| Ahead (r : regex)
| Eos.

(** Classes. *)
Definition one (c : ascii) : charset := Ascii.eqb c.
Definition none_of (c : ascii) : charset := fun x => negb (Ascii.eqb c x).
Definition range (lo hi : ascii) : charset :=
  fun x => (nat_of_ascii lo <=? nat_of_ascii x) && (nat_of_ascii x <=? nat_of_ascii hi).
Definition union (a b : charset) : charset := fun x => a x || b x.
Definition space : charset := PyStr.is_space.
Definition digit : charset := PyStr.is_digit.

(** Quantifiers on one character: [x*], [x+], [x+?], [x?]. *)
Definition star (cs : charset) : regex := Rep cs 0 None true.
Definition plus (cs : charset) : regex := Rep cs 1 None true.
Definition plus_lazy (cs : charset) : regex := Rep cs 1 None false.
Definition opt (cs : charset) : regex := Rep cs 0 (Some 1) true.

(** A literal run of characters. *)
Fixpoint lit (s : string) : regex :=
  match s with
  | EmptyString => Eps
  | String c s' => Cat (Chr c) (lit s')
  end.

(** A sequence of items. *)
Fixpoint seq (rs : list regex) : regex :=
  match rs with
  | [] => Eps
  | r :: rs' => Cat r (seq rs')
  end.

(** [re.IGNORECASE]: a literal matches both of its cases. *)
Fixpoint icase (r : regex) : regex :=
  match r with
  | Chr c => Cls (union (one (PyStr.lower_char c)) (one (PyStr.upper_char c)))
  | Cat r1 r2 => Cat (icase r1) (icase r2)
  | Alt r1 r2 => Alt (icase r1) (icase r2)
  | Grp i r1 => Grp i (icase r1)
  | Ahead r1 => Ahead (icase r1)
  | _ => r
  end.

(** Captured groups, the latest binding first. *)
Definition captures := list (nat * string).

Fixpoint group (caps : captures) (i : nat) : string :=
  match caps with
  | [] => EmptyString
  | (j, s) :: rest => if Nat.eqb i j then s else group rest i
  end.

(** The text between two positions, given as the suffixes that start there. *)
Definition consumed (s s' : string) : string :=
  substring 0 (String.length s - String.length s') s.

(** [$] without [re.MULTILINE]: the end, or just before a final newline. *)
Definition at_end (s : string) : bool :=
  match s with
  | EmptyString => true
  | String c EmptyString => Ascii.eqb c "010"%char
  | _ => false
  end.

Definition allowed (hi : option nat) : bool :=
  match hi with Some 0 => false | _ => true end.

Definition less (hi : option nat) : option nat :=
  match hi with Some n => Some (pred n) | None => None end.

Section Matcher.
Variable R : Type.

Fixpoint rep_exact (cs : charset) (n : nat) (s : string)
         (k : string -> option R) : option R :=
  match n with
  | 0 => k s
  | S n' =>
      match s with
      | String c s' => if cs c then rep_exact cs n' s' k else None
      | EmptyString => None
      end
  end.

Fixpoint rep_greedy (cs : charset) (hi : option nat) (s : string)
         (k : string -> option R) : option R :=
  match s with
  | String c s' =>
      if cs c && allowed hi then
        match rep_greedy cs (less hi) s' k with
        | Some x => Some x
        | None => k s
        end
      else k s
  | EmptyString => k s
  end.

Fixpoint rep_lazy (cs : charset) (hi : option nat) (s : string)
         (k : string -> option R) : option R :=
  match k s with
  | Some x => Some x
  | None =>
      match s with
      | String c s' =>
          if cs c && allowed hi then rep_lazy cs (less hi) s' k else None
      | EmptyString => None
      end
  end.

Definition rep (cs : charset) (lo : nat) (hi : option nat) (greedy : bool)
           (s : string) (k : string -> option R) : option R :=
  let extra := match hi with Some h => Some (h - lo) | None => None end in
  rep_exact cs lo s
    (fun s' => if greedy then rep_greedy cs extra s' k else rep_lazy cs extra s' k).
End Matcher.

(** [rmatch r s caps k]: match [r] at the start of [s], then go on with
    [k] on what is left; [None] when every way to match has been tried. *)
Fixpoint rmatch (R : Type) (r : regex) (s : string) (caps : captures)
         (k : string -> captures -> option R) {struct r} : option R :=
  match r with
  | Eps => k s caps
  | Chr c =>
      match s with
      | String c' s' => if Ascii.eqb c c' then k s' caps else None
      | EmptyString => None
      end
  | Cls cs =>
      match s with
      | String c' s' => if cs c' then k s' caps else None
      | EmptyString => None
      end
  | Rep cs lo hi greedy => rep cs lo hi greedy s (fun s' => k s' caps)
  | Cat r1 r2 => rmatch r1 s caps (fun s' caps' => rmatch r2 s' caps' k)
  | Alt r1 r2 =>
      match rmatch r1 s caps k with
      | Some x => Some x
      | None => rmatch r2 s caps k
      end
  | Grp i r1 =>
      rmatch r1 s caps (fun s' caps' => k s' ((i, consumed s s') :: caps'))
  | Ahead r1 =>
      match rmatch r1 s caps (fun _ caps' => Some caps') with
      | Some caps' => k s caps'
      | None => None
      end
  | Eos => if at_end s then k s caps else None
  end.

(** A match object: where it starts, group 0, what follows, the groups. *)
Record matchobj : Type := MatchObj {
  m_start : nat;
  m_text : string;
  m_rest : string;
  m_caps : captures
}.

(** [pattern.match] at one position ([pos] characters into the text). *)
Definition match_at (r : regex) (pos : nat) (s : string) : option matchobj :=
  rmatch r s [] (fun s' caps => Some (MatchObj pos (consumed s s') s' caps)).

(** [re.search]: the leftmost position with a match. *)
Fixpoint search_from (r : regex) (pos : nat) (s : string) : option matchobj :=
  match match_at r pos s with
  | Some m => Some m
  | None =>
      match s with
      | String _ s' => search_from r (S pos) s'
      | EmptyString => None
      end
  end.

Definition search (r : regex) (s : string) : option matchobj :=
  search_from r 0 s.

(** The left-to-right scan behind [re.findall] and [re.sub]: [skip]
    characters of the last match are still to be stepped over.  After a
    match the scan resumes where it ended.  (No pattern of the scraper
    matches the empty string; on an empty match this scan moves one
    character on.) *)
Fixpoint scan (r : regex) (pos : nat) (s : string) (skip : nat)
  : list (matchobj + ascii) :=
  match skip with
  | S n =>
      match s with
      | String _ s' => scan r (S pos) s' n
      | EmptyString => []
      end
  | 0 =>
      match match_at r pos s with
      | Some m =>
          inl m ::
          match s with
          | String c s' =>
              match String.length (m_text m) with
              | 0 => inr c :: scan r (S pos) s' 0
              | S n => scan r (S pos) s' n
              end
          | EmptyString => []
          end
      | None =>
          match s with
          | String c s' => inr c :: scan r (S pos) s' 0
          | EmptyString => []
          end
      end
  end.

(** [re.findall]: the non-overlapping matches, left to right. *)
Definition finditer (r : regex) (s : string) : list matchobj :=
  flat_map (fun x => match x with inl m => [m] | inr _ => [] end) (scan r 0 s 0).

(** [re.findall] for a pattern with two groups: the pairs of groups. *)
Definition findall2 (r : regex) (s : string) : list (string * string) :=
  map (fun m => (group (m_caps m) 1, group (m_caps m) 2)) (finditer r s).

(** [re.sub(r, repl, s)] for a replacement without group references. *)
Definition sub (r : regex) (repl : string) (s : string) : string :=
  fold_right
    (fun x out => match x with
                  | inl _ => (repl ++ out)%string
                  | inr c => String c out
                  end)
    EmptyString (scan r 0 s 0).

End Re.

(** ** BeautifulSoup: the parsed page and the navigation the scraper uses *)

Module Bs4.

(** [tag.attrs]: the parser keeps one value per attribute name. *)
Definition attrs := list (string * string).

#[warnings="-register-all"] Inductive node : Type :=
| NavigableString (s : string)
| Tag (name : string) (a : attrs) (children : list node).

(** Induction on a page: a tag with the property on all its children. *)
Fixpoint node_rect' (P : node -> Type) (Q : list node -> Type)
         (Hs : forall s, P (NavigableString s))
         (Ht : forall nm a children, Q children -> P (Tag nm a children))
         (Hnil : Q [])
         (Hcons : forall c rest, P c -> Q rest -> Q (c :: rest))
         (n : node) {struct n} : P n :=
  match n with
  | NavigableString s => Hs s
  | Tag nm a children =>
      Ht nm a children
         ((fix all (l : list node) : Q l :=
             match l with
             | [] => Hnil
             | c :: rest => Hcons c rest (node_rect' P Q Hs Ht Hnil Hcons c) (all rest)
             end) children)
  end.

(** [tag.get(key)] *)
Fixpoint get (a : attrs) (key : string) : option string :=
  match a with
  | [] => None
  | (k, v) :: rest => if String.eqb k key then Some v else get rest key
  end.

(** [tag.get(key, default)] *)
Definition get_default (a : attrs) (key default : string) : string :=
  match get a key with Some v => v | None => default end.

Definition is_tag (n : node) : bool :=
  match n with Tag _ _ _ => true | NavigableString _ => false end.

(** [tag.name] *)
Definition name_of (n : node) : string :=
  match n with Tag nm _ _ => nm | NavigableString _ => EmptyString end.

Definition attrs_of (n : node) : attrs :=
  match n with Tag _ a _ => a | NavigableString _ => [] end.

(** [tag.get_text()]: the strings below the node, in document order. *)
Fixpoint get_text (n : node) : string :=
  match n with
  | NavigableString s => s
  | Tag _ _ children =>
      fold_right (fun c acc => (get_text c ++ acc)%string) EmptyString children
  end.

(** [tag.get_text(strip=True)]: every string stripped, the empty ones
    left out, joined without a separator. *)
Fixpoint get_text_strip (n : node) : string :=
  match n with
  | NavigableString s => PyStr.strip s
  | Tag _ _ children =>
      fold_right (fun c acc => (get_text_strip c ++ acc)%string) EmptyString children
  end.

(** A position in the page: the node and, for each ancestor from the
    parent up to the root, that ancestor's name and attributes with the
    siblings before (nearest first) and after the path. *)
Record frame : Type := Frame {
  f_name : string;
  f_attrs : attrs;
  f_before : list node;
  f_after : list node
}.

Record loc : Type := Loc {
  focus : node;
  above : list frame
}.

Definition root (soup : node) : loc := Loc soup [].

(** [tag.descendants]: document order. *)
Fixpoint descendants_in (n : node) (up : list frame) : list loc :=
  match n with
  | NavigableString _ => []
  | Tag nm a children =>
      (fix walk (before after : list node) {struct after} : list loc :=
         match after with
         | [] => []
         | c :: rest =>
             let here := Frame nm a before rest :: up in
             Loc c here :: descendants_in c here ++ walk (c :: before) rest
         end) [] children
  end.

Definition descendants (l : loc) : list loc :=
  descendants_in (focus l) (above l).

(** [tag.find_all(test)]: the tags below that pass the test. *)
Definition find_all (test : node -> bool) (l : loc) : list loc :=
  filter (fun d => is_tag (focus d) && test (focus d)) (descendants l).

(** [tag.find(test)]: the first of them, or [None]. *)
Definition find (test : node -> bool) (l : loc) : option loc :=
  hd_error (find_all test l).

(** The tests of the scraper: a list of names, a name with an attribute
    value, a name with an attribute that is present. *)
Definition named (names : list string) (n : node) : bool :=
  PyStr.mem (name_of n) names.

Definition named_with (nm key value : string) (n : node) : bool :=
  String.eqb (name_of n) nm &&
  match get (attrs_of n) key with
  | Some v => String.eqb v value
  | None => false
  end.

Definition named_having (nm key : string) (n : node) : bool :=
  String.eqb (name_of n) nm &&
  match get (attrs_of n) key with Some _ => true | None => false end.

(** [tag.parent] *)
Definition parent (l : loc) : option loc :=
  match above l with
  | [] => None
  | f :: up =>
      Some (Loc (Tag (f_name f) (f_attrs f)
                     (rev (f_before f) ++ focus l :: f_after f)) up)
  end.

(** [tag.find_next_siblings()]: the tags after this one under the same
    parent, strings skipped. *)
Fixpoint tags_after (nm : string) (a : attrs) (before after : list node)
         (up : list frame) : list loc :=
  match after with
  | [] => []
  | c :: rest =>
      (if is_tag c then [Loc c (Frame nm a before rest :: up)] else [])
      ++ tags_after nm a (c :: before) rest up
  end.

Definition find_next_siblings (l : loc) : list loc :=
  match above l with
  | [] => []
  | f :: up => tags_after (f_name f) (f_attrs f) (focus l :: f_before f) (f_after f) up
  end.

(** [tag.find_next_sibling()] *)
Definition find_next_sibling (l : loc) : option loc :=
  hd_error (find_next_siblings l).

(** [current] and the tags that [current = current.find_next_sibling()]
    visits after it. *)
Definition from (current : option loc) : list loc :=
  match current with
  | None => []
  | Some c => c :: find_next_siblings c
  end.

End Bs4.

Import Bs4.

(** ** The records the scraper builds *)

(** One item of a content list; the source builds dictionaries with
    ["type"] equal to ["text"], ["image"], ["line_break"] and ["html"]. *)
Inductive ContentItem : Type :=
| Text (content : string)
| Image (src local_path alt : string) (width height : option string)
| LineBreak
| RawFragment (content html tag : string).

(** One answer choice; [source] is the optional key ["source"]. *)
Record AnswerChoice : Type := mkChoice {
  letter : string;
  text : string;
  source : option string
}.

Record SolutionRecord : Type := mkSolution {
  sol_number : nat;
  sol_content : list ContentItem
}.

(** [problem_data] as [extract_problem] returns it. *)
Record ProblemData : Type := mkProblem {
  number : nat;
  content : list ContentItem;
  answer_choices : list AnswerChoice
}.

(** ** [AMCScraper] *)

Section Scraper.

(** [self.download_image(img_url, problem_num, img_type)]: the local path
    of the downloaded image, or [None] when the download fails.  It talks
    to the network; the engine only sees its answer. *)
Variable download_image : string -> nat -> string -> option string.

(** [str(tag)]: BeautifulSoup's serialized markup of a tag. *)
Variable markup : node -> string.

(** [a or b] on two optional strings. *)
Definition py_or (a b : option string) : option string :=
  match a with
  | Some s => if PyStr.truthy s then a else b
  | None => b
  end.

(** The text branch: a stripped string, kept when it is not empty. *)
Definition text_item (s : string) : list ContentItem :=
  let text := PyStr.strip s in
  if PyStr.truthy text then [Text text] else [].

(** The image branch, on the attributes of the [img] tag. *)
Definition image_item (a : attrs) (problem_num : nat) (img_type : string)
  : list ContentItem :=
  match py_or (get a "src") (get a "data-src") with
  | Some img_src =>
      if PyStr.truthy img_src then
        match download_image img_src problem_num img_type with
        | Some local_path =>
            if PyStr.truthy local_path then
              [Image img_src local_path (get_default a "alt" "")
                     (get a "width") (get a "height")]
            else []
        | None => []
        end
      else []
  | None => []
  end.

(** [child.find('img')] *)
Definition find_img (child : node) : option loc :=
  find (named ["img"]) (root child).

(** A tag is always true; [None] is not. *)
Definition is_found (l : option loc) : bool :=
  match l with Some _ => true | None => false end.

Definition containers : list string := ["p"; "div"; "span"; "br"; "pre"; "code"].

(** [extract_content_with_images]: the content of an element, text and
    images in document order. *)
Fixpoint extract_content_with_images (element : node) (problem_num : nat)
         (img_type : string) {struct element} : list ContentItem :=
  match element with
  | NavigableString s => text_item s
  | Tag _ _ children =>
      flat_map
        (fun child =>
           match child with
           | NavigableString s => text_item s
           | Tag name _ _ =>
               if String.eqb name "img" then
                 image_item (attrs_of child) problem_num img_type
               else if String.eqb name "a" && is_found (find_img child) then
                 match find_img child with
                 | Some img => image_item (attrs_of (focus img)) problem_num img_type
                 | None => []
                 end
               else if PyStr.mem name containers then
                 extract_content_with_images child problem_num img_type
               else if String.eqb name "br" then
                 [LineBreak]
               else
                 let text := get_text_strip child in
                 if PyStr.truthy text then [RawFragment text (markup child) name]
                 else []
           end)
        children
  end.

(** The body of [for child in element.children], for one child. *)
Definition child_content (child : node) (problem_num : nat) (img_type : string)
  : list ContentItem :=
  match child with
  | NavigableString s => text_item s
  | Tag name _ _ =>
      if String.eqb name "img" then
        image_item (attrs_of child) problem_num img_type
      else if String.eqb name "a" && is_found (find_img child) then
        match find_img child with
        | Some img => image_item (attrs_of (focus img)) problem_num img_type
        | None => []
        end
      else if PyStr.mem name containers then
        extract_content_with_images child problem_num img_type
      else if String.eqb name "br" then
        [LineBreak]
      else
        let text := get_text_strip child in
        if PyStr.truthy text then [RawFragment text (markup child) name]
        else []
  end.

(** A tag that is neither an image, nor a link around an image, nor one
    of the containers the walk goes into. *)
Definition falls_back (child : node) : bool :=
  is_tag child
  && negb (String.eqb (name_of child) "img")
  && negb (String.eqb (name_of child) "a" && is_found (find_img child))
  && negb (PyStr.mem (name_of child) containers).

(** *** The answer choices *)

(** [\$\\textbf\{\(([A-E])\)\}\\s*([^\$]+?)(?=\$|\\qquad|$)].  In the raw
    string [\\s*] is a backslash followed by any number of [s]. *)
Definition choice_end : Re.regex :=
  Re.Ahead (Re.Alt (Re.Chr "$") (Re.Alt (Re.lit "\qquad") Re.Eos)).

Definition answer_pattern_1 : Re.regex :=
  Re.seq [Re.Chr "$"; Re.lit "\textbf{("; Re.Grp 1 (Re.Cls (Re.range "A" "E"));
          Re.lit ")}"; Re.Chr "\"; Re.star (Re.one "s");
          Re.Grp 2 (Re.plus_lazy (Re.none_of "$")); choice_end].

(** [\\textbf\{\(([A-E])\)\}\\s*([^\$]+?)(?=\$|\\qquad|$)] *)
Definition answer_pattern_2 : Re.regex :=
  Re.seq [Re.lit "\textbf{("; Re.Grp 1 (Re.Cls (Re.range "A" "E"));
          Re.lit ")}"; Re.Chr "\"; Re.star (Re.one "s");
          Re.Grp 2 (Re.plus_lazy (Re.none_of "$")); choice_end].

(** [\(([A-E])\)\s*([^\$]+?)(?=\$|\\qquad|$)] *)
Definition answer_pattern_3 : Re.regex :=
  Re.seq [Re.Chr "("; Re.Grp 1 (Re.Cls (Re.range "A" "E")); Re.Chr ")";
          Re.star Re.space;
          Re.Grp 2 (Re.plus_lazy (Re.none_of "$")); choice_end].

Definition answer_patterns : list Re.regex :=
  [answer_pattern_1; answer_pattern_2; answer_pattern_3].

(** The strings of the text and html items, joined by one space. *)
Definition problem_text_parts (content : list ContentItem) : list string :=
  flat_map (fun item => match item with
                        | Text c => [c]
                        | RawFragment c _ _ => [c]
                        | _ => []
                        end) content.

Definition problem_text (content : list ContentItem) : string :=
  PyStr.join " " (problem_text_parts content).

(** The body of [for letter, text in matches]. *)
Definition text_choice (m : string * string) : list AnswerChoice :=
  let text := PyStr.strip (Re.sub (Re.plus (Re.one "$")) "" (snd m)) in
  if PyStr.truthy text && (0 <? String.length text)
  then [mkChoice (fst m) (PyStr.strip text) None]
  else [].

(** [for pattern in answer_patterns]: the answer choices and
    [found_choices] after the loop. *)
Fixpoint text_cascade (patterns : list Re.regex) (problem_text : string)
         (answer_choices : list AnswerChoice) : list AnswerChoice * bool :=
  match patterns with
  | [] => (answer_choices, false)
  | pattern :: later =>
      match Re.findall2 pattern problem_text with
      | [] => text_cascade later problem_text answer_choices
      | matches => (answer_choices ++ flat_map text_choice matches, true)
      end
  end.

(** [\\textbf\{\(X\)\}\\s*([^\\]+?)(?=\\qquad|\\textbf|$)] for the letter
    [X] of the f-string. *)
Definition alt_pattern (letter : string) : Re.regex :=
  Re.seq [Re.lit "\textbf{("; Re.lit letter; Re.lit ")}"; Re.Chr "\";
          Re.star (Re.one "s");
          Re.Grp 1 (Re.plus_lazy (Re.none_of "\"));
          Re.Ahead (Re.Alt (Re.lit "\qquad") (Re.Alt (Re.lit "\textbf") Re.Eos))].

(** [\\[a-zA-Z]+\{?\}?] *)
Definition latex_command : Re.regex :=
  Re.seq [Re.Chr "\"; Re.plus (Re.union (Re.range "a" "z") (Re.range "A" "Z"));
          Re.opt (Re.one "{"); Re.opt (Re.one "}")].

(** [\$+\s*$] *)
Definition trailing_dollars : Re.regex :=
  Re.seq [Re.plus (Re.one "$"); Re.star Re.space; Re.Eos].

(** The three clean-up steps on the text of one choice of an alt text. *)
Definition clean_alt (text : string) : string :=
  let text := PyStr.strip (Re.sub latex_command "" text) in
  let text := PyStr.strip (Re.sub (Re.plus Re.space) " " text) in
  PyStr.strip (Re.sub trailing_dollars "" text).

(** The body of [for letter in ['A', 'B', 'C', 'D', 'E']]. *)
Definition alt_choice (alt_text letter : string) : list AnswerChoice :=
  match Re.search (alt_pattern letter) alt_text with
  | Some m =>
      let text := clean_alt (Re.group (Re.m_caps m) 1) in
      if PyStr.truthy text then [mkChoice letter text (Some "image_alt")] else []
  | None => []
  end.

Definition letters : list string := ["A"; "B"; "C"; "D"; "E"].

Definition alt_choices (alt_text : string) : list AnswerChoice :=
  flat_map (alt_choice alt_text) letters.

Definition has_marker (alt_text : string) : bool :=
  PyStr.contains "\textbf{(A)}" alt_text || PyStr.contains "textbf{(A)}" alt_text.

(** [for item in problem_data['content']] of the image fallback, with its
    [break] once an image has left a choice in [answer_choices]. *)
Fixpoint alt_scan (items : list ContentItem) (answer_choices : list AnswerChoice)
  : list AnswerChoice :=
  match items with
  | [] => answer_choices
  | Image _ _ alt_text _ _ :: rest =>
      if PyStr.truthy alt_text then
        if has_marker alt_text then
          let answer_choices := answer_choices ++ alt_choices alt_text in
          match answer_choices with
          | [] => alt_scan rest answer_choices
          | _ :: _ => answer_choices
          end
        else alt_scan rest answer_choices
      else alt_scan rest answer_choices
  | _ :: rest => alt_scan rest answer_choices
  end.

(** [found_choices] after the text patterns. *)
Definition found_choices (content : list ContentItem) : bool :=
  snd (text_cascade answer_patterns (problem_text content) []).

(** The answer-choice part of [extract_problem]: the text patterns first,
    the alt texts of the images when none of them matched. *)
Definition extract_answer_choices (content : list ContentItem) : list AnswerChoice :=
  let '(answer_choices, found_choices) :=
    text_cascade answer_patterns (problem_text content) [] in
  if found_choices then answer_choices else alt_scan content answer_choices.

(** *** [extract_problem] *)

(** [soup.find('span', {'id': 'Problem'})], then the first of the [h2],
    [h3] and [span] tags whose text is "problem". *)
Definition is_problem_heading (heading : node) : bool :=
  let text := PyStr.lower (PyStr.strip (get_text heading)) in
  String.eqb text "problem" || named_with "span" "id" "Problem" heading.

Definition find_problem_heading (soup : node) : option loc :=
  match find (named_with "span" "id" "Problem") (root soup) with
  | Some problem_heading => Some problem_heading
  | None =>
      List.find (fun heading => is_problem_heading (focus heading))
                (find_all (named ["h2"; "h3"; "span"]) (root soup))
  end.

(** Where the collection starts: after the parent of the heading, or
    after the heading itself when the parent is a [div]. *)
Definition first_sibling (problem_heading : loc) : option loc :=
  let current := match parent problem_heading with
                 | Some p => p
                 | None => problem_heading
                 end in
  if negb (String.eqb (name_of (focus current)) "div")
  then find_next_sibling current
  else find_next_sibling problem_heading.

(** The two [break] tests of the [while current] loop. *)
Definition heading_stops (current : node) : bool :=
  named ["h2"; "h3"] current &&
  (let text := PyStr.lower (PyStr.strip (get_text current)) in
   PyStr.contains "solution" text || PyStr.contains "see also" text
   || PyStr.contains "video solution" text).

Definition anchor_stops (current : node) : bool :=
  String.eqb (name_of current) "span" &&
  match get (attrs_of current) "id" with
  | Some id => PyStr.truthy id && PyStr.startswith id "Solution"
  | None => false
  end.

Definition problem_stops (current : node) : bool :=
  heading_stops current || anchor_stops current.

(** [while current]: the siblings collected into [problem_content]. *)
Fixpoint problem_section (siblings : list loc) : list node :=
  match siblings with
  | [] => []
  | current :: later =>
      if problem_stops (focus current) then []
      else focus current :: problem_section later
  end.

(** The same loop one step at a time, [current] moved by
    [find_next_sibling]; [None] when the steps allowed are used up. *)
Fixpoint problem_loop (steps : nat) (current : option loc)
         (problem_content : list node) : option (list node) :=
  match steps with
  | 0 => None
  | S steps' =>
      match current with
      | None => Some problem_content
      | Some cur =>
          if problem_stops (focus cur) then Some problem_content
          else problem_loop steps' (find_next_sibling cur)
                            (problem_content ++ [focus cur])
      end
  end.

Definition problem_region (problem_heading : loc) : list node :=
  problem_section (from (first_sibling problem_heading)).

Definition extract_problem (soup : node) (problem_num : nat) : ProblemData :=
  match find_problem_heading soup with
  | Some problem_heading =>
      let problem_content := problem_region problem_heading in
      let content :=
        flat_map (fun elem => extract_content_with_images elem problem_num "problem")
                 problem_content in
      mkProblem problem_num content (extract_answer_choices content)
  | None => mkProblem problem_num [] []
  end.

(** *** [extract_solutions] *)

(** [Solution_(\d+)] *)
Definition solution_id_pattern : Re.regex :=
  Re.seq [Re.lit "Solution_"; Re.Grp 1 (Re.plus Re.digit)].

(** [solution\s+(\d+)] under [re.IGNORECASE] *)
Definition solution_text_pattern : Re.regex :=
  Re.icase (Re.seq [Re.lit "solution"; Re.plus Re.space; Re.Grp 1 (Re.plus Re.digit)]).

(** [int(match.group(1)) == i + 1] for an optional match. *)
Definition names_next (m : option Re.matchobj) (i : nat) : bool :=
  match m with
  | Some next_num_match => Nat.eqb (PyStr.int (Re.group (Re.m_caps next_num_match) 1)) (i + 1)
  | None => false
  end.

(** The heading of solution [i]: the parent of its span when that is an
    [h2], else the first [h2] or [h3] whose text is "Solution i" or
    "Solution i:". *)
Definition solution_heading_of (soup : node) (i : nat) (solution_span : loc)
  : option loc :=
  match match parent solution_span with
        | Some p => if String.eqb (name_of (focus p)) "h2" then Some p else None
        | None => None
        end with
  | Some solution_heading => Some solution_heading
  | None =>
      List.find
        (fun heading =>
           let text := PyStr.strip (get_text (focus heading)) in
           String.eqb text ("Solution " ++ PyStr.of_nat i)%string
           || String.eqb text ("Solution " ++ PyStr.of_nat i ++ ":")%string)
        (find_all (named ["h2"; "h3"]) (root soup))
  end.

(** The [break] tests of the content loop of solution [i]. *)
Definition solution_stops (current : node) (i max_solutions : nat) : bool :=
  if String.eqb (name_of current) "h2" then
    match find (named_having "span" "id") (root current) with
    | Some span =>
        let span_id := get_default (attrs_of (focus span)) "id" "" in
        if PyStr.startswith span_id "Solution_" then
          names_next (Re.search solution_id_pattern span_id) i
        else PyStr.startswith span_id "Video" || PyStr.startswith span_id "See_Also"
    | None =>
        let text := PyStr.lower (PyStr.strip (get_text current)) in
        if PyStr.startswith text "solution" && (i <? max_solutions) then
          names_next (Re.search solution_text_pattern text) i
        else PyStr.startswith text "video" || PyStr.startswith text "see also"
    end
  else false.

Fixpoint solution_section (siblings : list loc) (problem_num i max_solutions : nat)
  : list ContentItem :=
  match siblings with
  | [] => []
  | current :: later =>
      if solution_stops (focus current) i max_solutions then []
      else extract_content_with_images (focus current) problem_num
             ("solution_" ++ PyStr.of_nat i)%string
           ++ solution_section later problem_num i max_solutions
  end.

(** [for i in range(1, max_solutions + 1)], [todo] indices still to try
    from [i] on; both [break]s leave with the solutions found so far. *)
Fixpoint solutions_loop (soup : node) (problem_num max_solutions todo i : nat)
         (solutions : list SolutionRecord) : list SolutionRecord :=
  match todo with
  | 0 => solutions
  | S todo' =>
      let solution_id := ("Solution_" ++ PyStr.of_nat i)%string in
      match find (named_with "span" "id" solution_id) (root soup) with
      | None => solutions
      | Some solution_span =>
          match solution_heading_of soup i solution_span with
          | None => solutions
          | Some solution_heading =>
              let content :=
                solution_section (from (find_next_sibling solution_heading))
                                 problem_num i max_solutions in
              solutions_loop soup problem_num max_solutions todo' (S i)
                (match content with
                 | [] => solutions
                 | _ :: _ => solutions ++ [mkSolution i content]
                 end)
          end
      end
  end.

Definition extract_solutions (soup : node) (problem_num max_solutions : nat)
  : list SolutionRecord :=
  solutions_loop soup problem_num max_solutions max_solutions 1 [].

End Scraper.

(** ** Sample collaborators and pages for the concrete cases *)

(** An image resolver that stores every image under one name. *)
Definition saved (img_url : string) (problem_num : nat) (img_type : string)
  : option string := Some ("images/" ++ img_type ++ ".png")%string.

(** A serializer that writes only the opening tag. *)
Definition open_tag (n : node) : string := ("<" ++ name_of n ++ ">")%string.

Definition headline (id title : string) : node :=
  Tag "h2" [] [Tag "span" [("class", "mw-headline"); ("id", id)] [NavigableString title]].

Definition paragraph (s : string) : node := Tag "p" [] [NavigableString s].

Definition page_of (body : list node) : node :=
  Tag "[document]" [] [Tag "div" [("class", "mw-parser-output")] body].

(** A page with solutions 1 and 3 and no solution 2. *)
Definition page_with_gap : node :=
  page_of [headline "Problem" "Problem";
           paragraph "How many are there?";
           headline "Solution_1" "Solution 1";
           paragraph "Count them.";
           headline "Solution_3" "Solution 3";
           paragraph "Count them twice.";
           headline "See_Also" "See Also";
           paragraph "Other years."].

(** A page whose problem text names choice A twice. *)
Definition page_with_repeated_letter : node :=
  page_of [headline "Problem" "Problem";
           paragraph "$\textbf{(A)}\ 1$ $\textbf{(A)}\ 2$"].

(** A page whose choices are in the alt text of an image. *)
Definition page_with_image_choices : node :=
  page_of [headline "Problem" "Problem";
           Tag "p" [] [NavigableString "What is the sum? ";
                       Tag "img" [("src", "/latex/choices.png");
                                  ("alt", "$\textbf{(A)}\ 3\qquad\textbf{(B)}\ 4$")] []];
           headline "Solution_1" "Solution 1";
           paragraph "Add."].

(** A page with no problem anchor: no [Problem] identifier, no heading
    whose text is "problem". *)
Definition page_without_problem : node :=
  page_of [headline "Statement" "The Problem";
           paragraph "How many are there?";
           headline "Solution_1" "Solution 1";
           paragraph "Count them."].

(** The problem heading of [page_with_gap]. *)
Definition heading_of_page_with_gap : loc :=
  match find_problem_heading page_with_gap with
  | Some problem_heading => problem_heading
  | None => root page_with_gap
  end.

(** A table that holds nothing but an image. *)
Definition image_table : node :=
  Tag "table" [] [Tag "tr" [] [Tag "td" [] [Tag "img" [("src", "/fig.png")] []]]].

(** ** The scraper object, its pages and its files *)

Unset Implicit Arguments.

Definition BASE_URL : string := "https://artofproblemsolving.com".

(** The exceptions the modelled code can raise. *)
Inductive raised : Type :=
| ValueError (message : string)
| UnboundLocalError (variable : string).

(** A [pathlib.Path] as the list of its components; [p / name] for a name
    that is one relative component, as all the names of the scraper are. *)
Definition Path : Type := list string.

Definition div (p : Path) (name : string) : Path := p ++ [name].

(** The attributes [__init__] sets (the HTTP session left out). *)
Record AMCScraper : Type := mkScraper {
  contest_type : string;
  year : nat;
  base_output_dir : Path;
  contest_name : string;
  dir_name : string;
  output_dir : Path;
  images_dir : Path
}.

(** The [if]/[elif] chain of [AMCScraper.__init__]: the contest name and
    the directory name, or [None] in the [else] branch. *)
Definition contest_names (contest_type : string) : option (string * string) :=
  if String.eqb contest_type "AMC8" then Some ("AMC 8", "AMC8")
  else if String.eqb contest_type "AMC10A" then Some ("AMC 10A", "AMC10A")
  else if String.eqb contest_type "AMC10B" then Some ("AMC 10B", "AMC10B")
  else if String.eqb contest_type "AMC12A" then Some ("AMC 12A", "AMC12A")
  else if String.eqb contest_type "AMC12B" then Some ("AMC 12B", "AMC12B")
  else None.

(** [AMCScraper(contest_type, year, base_output_dir)]; making the
    directories is left to the file system. *)
Definition scraper_init (contest_type : string) (year : nat) (base_output_dir : Path)
  : raised + AMCScraper :=
  match contest_names contest_type with
  | Some (contest_name, dir_name) =>
      let output_dir := div (div base_output_dir dir_name) (PyStr.of_nat year) in
      inr (mkScraper contest_type year base_output_dir contest_name dir_name
                     output_dir (div output_dir "images"))
  | None => inl (ValueError ("Unknown contest type: " ++ contest_type)%string)
  end.

(** [get_main_page_url]; a function that falls off its [elif] chain
    returns [None]. *)
Definition get_main_page_url (self : AMCScraper) : option string :=
  let wiki := (BASE_URL ++ "/wiki/index.php/" ++ PyStr.of_nat (year self))%string in
  if String.eqb (contest_type self) "AMC8" then Some (wiki ++ "_AMC_8")%string
  else if String.eqb (contest_type self) "AMC10A" then Some (wiki ++ "_AMC_10A")%string
  else if String.eqb (contest_type self) "AMC10B" then Some (wiki ++ "_AMC_10B")%string
  else if String.eqb (contest_type self) "AMC12A" then Some (wiki ++ "_AMC_12A")%string
  else if String.eqb (contest_type self) "AMC12B" then Some (wiki ++ "_AMC_12B")%string
  else None.

(** The [url] the fallback of [get_problem_links] builds for problem [i];
    [None] when no branch assigns it. *)
Definition problem_url (self : AMCScraper) (i : nat) : option string :=
  let title := (BASE_URL ++ "/wiki/index.php?title=" ++ PyStr.of_nat (year self))%string in
  let tail := ("_Problems/Problem_" ++ PyStr.of_nat i)%string in
  if String.eqb (contest_type self) "AMC8" then Some (title ++ "_AMC_8" ++ tail)%string
  else if String.eqb (contest_type self) "AMC10A" then Some (title ++ "_AMC_10A" ++ tail)%string
  else if String.eqb (contest_type self) "AMC10B" then Some (title ++ "_AMC_10B" ++ tail)%string
  else if String.eqb (contest_type self) "AMC12A" then Some (title ++ "_AMC_12A" ++ tail)%string
  else if String.eqb (contest_type self) "AMC12B" then Some (title ++ "_AMC_12B" ++ tail)%string
  else None.

(** [json_filename] of [scrape_all]; [None] when no branch assigns it. *)
Definition json_filename (self : AMCScraper) : option string :=
  let tail := ("_" ++ PyStr.of_nat (year self) ++ "_problems.json")%string in
  if String.eqb (contest_type self) "AMC8" then Some ("amc8" ++ tail)%string
  else if String.eqb (contest_type self) "AMC10A" then Some ("amc10a" ++ tail)%string
  else if String.eqb (contest_type self) "AMC10B" then Some ("amc10b" ++ tail)%string
  else if String.eqb (contest_type self) "AMC12A" then Some ("amc12a" ++ tail)%string
  else if String.eqb (contest_type self) "AMC12B" then Some ("amc12b" ++ tail)%string
  else None.

(** [output_file = self.output_dir / json_filename] *)
Definition output_file (self : AMCScraper) : raised + Path :=
  match json_filename self with
  | Some name => inr (div (output_dir self) name)
  | None => inl (UnboundLocalError "json_filename")
  end.

(** *** [HTMLRenderer], the reader of the file *)

Record HTMLRenderer : Type := mkRenderer {
  r_contest_type : string;
  r_year : option nat;
  r_contest_name : string;
  r_dir_name : string;
  json_prefix : string;
  year_dir : option Path;
  r_output_dir : option Path
}.

Definition renderer_names (contest_type : string) : option (string * string * string) :=
  if String.eqb contest_type "AMC8" then Some ("AMC 8", "AMC8", "amc8")
  else if String.eqb contest_type "AMC10A" then Some ("AMC 10A", "AMC10A", "amc10a")
  else if String.eqb contest_type "AMC10B" then Some ("AMC 10B", "AMC10B", "amc10b")
  else if String.eqb contest_type "AMC12A" then Some ("AMC 12A", "AMC12A", "amc12a")
  else if String.eqb contest_type "AMC12B" then Some ("AMC 12B", "AMC12B", "amc12b")
  else None.

(** [if year:] on an optional integer. *)
Definition year_given (year : option nat) : bool :=
  match year with
  | Some (S _) => true
  | _ => false
  end.

(** [str(year)] and [f"{self.year}"] *)
Definition year_str (year : option nat) : string :=
  match year with
  | Some y => PyStr.of_nat y
  | None => "None"
  end.

(** [HTMLRenderer(contest_type, year, base_data_dir)] *)
Definition renderer_init (contest_type : string) (year : option nat) (base_data_dir : Path)
  : raised + HTMLRenderer :=
  match renderer_names contest_type with
  | Some (contest_name, dir_name, json_prefix) =>
      if year_given year then
        let year_dir := div (div base_data_dir dir_name) (year_str year) in
        inr (mkRenderer contest_type year contest_name dir_name json_prefix
                        (Some year_dir) (Some (div year_dir "html")))
      else
        inr (mkRenderer contest_type year contest_name dir_name json_prefix None None)
  | None => inl (ValueError ("Unknown contest type: " ++ contest_type)%string)
  end.

(** [json_file] of [render_all]; [None] when the renderer has no year
    directory and returns before it reads. *)
Definition renderer_json_file (self : HTMLRenderer) : option Path :=
  match year_dir self with
  | Some dir =>
      Some (div dir (json_prefix self ++ "_" ++ year_str (r_year self) ++ "_problems.json")%string)
  | None => None
  end.

(** *** [download_image] *)

Section Download.

(** [urljoin(base, url)] of [urllib.parse]. *)
Variable urljoin : string -> string -> string.

(** [os.path.splitext(urlparse(url).path)[1]]: the extension in the URL. *)
Variable url_ext : string -> string.

(** [hash(url)], an integer of either sign. *)
Variable hash : string -> Z.

(** Whether the request for the URL succeeds and the file of that name is
    written; any exception on the way is caught by [download_image]. *)
Variable transferred : string -> string -> bool.

Definition download_image (img_url : string) (problem_num : nat) (img_type : string)
  : option string :=
  let img_url := if negb (PyStr.startswith img_url "http")
                 then urljoin BASE_URL img_url else img_url in
  let ext := if PyStr.truthy (url_ext img_url) then url_ext img_url else ".png" in
  let filename := ("problem_" ++ PyStr.of_nat problem_num ++ "_" ++ img_type ++ "_"
                   ++ PyStr.of_nat (Z.to_nat (Z.modulo (hash img_url) 10000)) ++ ext)%string in
  if transferred img_url filename then Some ("images/" ++ filename)%string else None.

End Download.

(** *** [get_problem_links], [scrape_problem] and [scrape_all] *)

(** A problem with what [scrape_problem] adds to it. *)
Record ProblemRecord : Type := mkRecord {
  problem : ProblemData;
  solutions : list SolutionRecord;
  p_year : nat;
  p_contest_type : string;
  p_contest_name : string
}.

(** [Problem\s+(\d+)] under [re.IGNORECASE] *)
Definition problem_link_pattern : Re.regex :=
  Re.icase (Re.seq [Re.lit "Problem"; Re.plus Re.space; Re.Grp 1 (Re.plus Re.digit)]).

(** [sorted(links, key=lambda x: x[0])]: a stable sort on the number. *)
Fixpoint insert_link (x : nat * string) (sorted : list (nat * string))
  : list (nat * string) :=
  match sorted with
  | [] => [x]
  | y :: rest => if fst x <=? fst y then x :: y :: rest else y :: insert_link x rest
  end.

Fixpoint sorted_by_number (links : list (nat * string)) : list (nat * string) :=
  match links with
  | [] => []
  | x :: rest => insert_link x (sorted_by_number rest)
  end.

(** [int(digits)] with the limit on the digits of a conversion:
    [max_str_digits] is [sys.get_int_max_str_digits()], 0 when there is no
    limit (as before Python 3.11).  A run of more digits than the limit
    raises ValueError. *)
Definition int_error (max_str_digits digits : nat) : raised :=
  ValueError ("Exceeds the limit (" ++ PyStr.of_nat max_str_digits
              ++ " digits) for integer string conversion: value has "
              ++ PyStr.of_nat digits
              ++ " digits; use sys.set_int_max_str_digits() to increase the limit")%string.

Definition py_int (max_str_digits : nat) (digits : string) : raised + nat :=
  if (0 <? max_str_digits) && (max_str_digits <? String.length digits)
  then inl (int_error max_str_digits (String.length digits))
  else inr (PyStr.int digits).

(** *** [extract_solutions] with the error of [int]

    [extract_solutions] as above follows the code where [int] returns.
    Here the two calls of [int] in its content loop can raise; when none
    does, the solutions are those of [extract_solutions]. *)

Section Raising.

Variable int_max_str_digits : nat.
Variable download_image : string -> nat -> string -> option string.
Variable markup : node -> string.

(** [int(match.group(1)) == i + 1] for an optional match. *)
Definition names_next_or_raise (m : option Re.matchobj) (i : nat) : raised + bool :=
  match m with
  | Some next_num_match =>
      match py_int int_max_str_digits (Re.group (Re.m_caps next_num_match) 1) with
      | inl e => inl e
      | inr next_num => inr (Nat.eqb next_num (i + 1))
      end
  | None => inr false
  end.

Definition solution_stops_or_raise (current : node) (i max_solutions : nat)
  : raised + bool :=
  if String.eqb (name_of current) "h2" then
    match find (named_having "span" "id") (root current) with
    | Some span =>
        let span_id := get_default (attrs_of (focus span)) "id" "" in
        if PyStr.startswith span_id "Solution_" then
          names_next_or_raise (Re.search solution_id_pattern span_id) i
        else inr (PyStr.startswith span_id "Video" || PyStr.startswith span_id "See_Also")
    | None =>
        let text := PyStr.lower (PyStr.strip (get_text current)) in
        if PyStr.startswith text "solution" && (i <? max_solutions) then
          names_next_or_raise (Re.search solution_text_pattern text) i
        else inr (PyStr.startswith text "video" || PyStr.startswith text "see also")
    end
  else inr false.

Fixpoint solution_section_or_raise (siblings : list loc)
         (problem_num i max_solutions : nat) : raised + list ContentItem :=
  match siblings with
  | [] => inr []
  | current :: later =>
      match solution_stops_or_raise (focus current) i max_solutions with
      | inl e => inl e
      | inr true => inr []
      | inr false =>
          match solution_section_or_raise later problem_num i max_solutions with
          | inl e => inl e
          | inr rest =>
              inr (extract_content_with_images download_image markup (focus current)
                     problem_num ("solution_" ++ PyStr.of_nat i)%string
                   ++ rest)
          end
      end
  end.

Fixpoint solutions_loop_or_raise (soup : node) (problem_num max_solutions todo i : nat)
         (solutions : list SolutionRecord) : raised + list SolutionRecord :=
  match todo with
  | 0 => inr solutions
  | S todo' =>
      let solution_id := ("Solution_" ++ PyStr.of_nat i)%string in
      match find (named_with "span" "id" solution_id) (root soup) with
      | None => inr solutions
      | Some solution_span =>
          match solution_heading_of soup i solution_span with
          | None => inr solutions
          | Some solution_heading =>
              match solution_section_or_raise (from (find_next_sibling solution_heading))
                                              problem_num i max_solutions with
              | inl e => inl e
              | inr content =>
                  solutions_loop_or_raise soup problem_num max_solutions todo' (S i)
                    (match content with
                     | [] => solutions
                     | _ :: _ => solutions ++ [mkSolution i content]
                     end)
              end
          end
      end
  end.

Definition extract_solutions_or_raise (soup : node) (problem_num max_solutions : nat)
  : raised + list SolutionRecord :=
  solutions_loop_or_raise soup problem_num max_solutions max_solutions 1 [].

End Raising.

Section Driver.

(** [sys.get_int_max_str_digits()], 0 for no limit. *)
Variable int_max_str_digits : nat.

(** [urljoin(base, url)]: the joined URL, or what [urllib.parse] raises. *)
Variable urljoin : string -> string -> raised + string.

(** The order in which a [set] of links is iterated: some list of the
    distinct links, the language fixes no order. *)
Variable set_order : list (nat * string) -> list (nat * string).

(** [self.fetch_page(url)] for the request number [k] of a run: the parsed
    page, or [None] when the request fails. *)
Variable fetch_page : nat -> string -> option node.

Variable download_image : string -> nat -> string -> option string.
Variable markup : node -> string.

(** The body of [for link in soup.find_all('a', href=True)]: the link it
    appends, if any, or what [int] or [urljoin] raises. *)
Definition link_of (link : loc) : raised + list (nat * string) :=
  let href := get_default (attrs_of (focus link)) "href" "" in
  let text := PyStr.strip (get_text (focus link)) in
  match Re.match_at problem_link_pattern 0 text with
  | Some m =>
      match py_int int_max_str_digits (Re.group (Re.m_caps m) 1) with
      | inl e => inl e
      | inr problem_num =>
          if (1 <=? problem_num) && (problem_num <=? 25) then
            match urljoin BASE_URL href with
            | inl e => inl e
            | inr full_url => inr [(problem_num, full_url)]
            end
          else inr []
      end
  | None => inr []
  end.

(** The loop over the links of the page; it ends at the first link that
    raises. *)
Fixpoint links_of_page (page_links : list loc) : raised + list (nat * string) :=
  match page_links with
  | [] => inr []
  | link :: later =>
      match link_of link with
      | inl e => inl e
      | inr found =>
          match links_of_page later with
          | inl e => inl e
          | inr links => inr (found ++ links)
          end
      end
  end.

(** [for i in range(1, 26)] of the fallback, which needs [url] assigned. *)
Fixpoint construct_links (self : AMCScraper) (numbers : list nat)
  : raised + list (nat * string) :=
  match numbers with
  | [] => inr []
  | i :: later =>
      match problem_url self i with
      | None => inl (UnboundLocalError "url")
      | Some url =>
          match construct_links self later with
          | inl e => inl e
          | inr links => inr ((i, url) :: links)
          end
      end
  end.

(** [get_problem_links], the main page asked for in request [k].  A main
    page URL that is [None] makes the request fail. *)
Definition get_problem_links (self : AMCScraper) (k : nat) : raised + list (nat * string) :=
  match match get_main_page_url self with
        | Some main_page_url => fetch_page k main_page_url
        | None => None
        end with
  | None => inr []
  | Some soup =>
      match links_of_page (find_all (named_having "a" "href") (root soup)) with
      | inl e => inl e
      | inr links =>
          match sorted_by_number (set_order links) with
          | [] => construct_links self (seq 1 25)
          | links => inr links
          end
      end
  end.

(** [scrape_problem], the page asked for in request [k]: [None] when the
    page cannot be fetched. *)
Definition scrape_problem (self : AMCScraper) (k : nat) (problem_url : string)
           (problem_num : nat) : raised + option ProblemRecord :=
  match fetch_page k problem_url with
  | None => inr None
  | Some soup =>
      match extract_solutions_or_raise int_max_str_digits download_image markup
              soup problem_num 3 with
      | inl e => inl e
      | inr solutions =>
          inr (Some (mkRecord (extract_problem download_image markup soup problem_num)
                              solutions
                              (year self) (contest_type self) (contest_name self)))
      end
  end.

(** [for problem_num, url in problem_links] of [scrape_all], from request
    [k] on. *)
Fixpoint scrape_links (self : AMCScraper) (k : nat) (problem_links : list (nat * string))
  : raised + list ProblemRecord :=
  match problem_links with
  | [] => inr []
  | (problem_num, url) :: later =>
      match scrape_problem self k url problem_num with
      | inl e => inl e
      | inr scraped =>
          match scrape_links self (S k) later with
          | inl e => inl e
          | inr problems =>
              inr (match scraped with
                   | Some problem_data => problem_data :: problems
                   | None => problems
                   end)
          end
      end
  end.

(** [scrape_all]: the problems it returns, or what it raises before it
    opens [output_file]; the file is taken to be written without an
    error of the file system. *)
Definition scrape_all (self : AMCScraper) : raised + list ProblemRecord :=
  match get_problem_links self 0 with
  | inl e => inl e
  | inr problem_links =>
      match scrape_links self 1 problem_links with
      | inl e => inl e
      | inr all_problems =>
          match output_file self with
          | inl e => inl e
          | inr _ => inr all_problems
          end
      end
  end.

(** The links whose page is fetched, the first of them in request [k]. *)
Fixpoint answered (k : nat) (problem_links : list (nat * string)) : list (nat * string) :=
  match problem_links with
  | [] => []
  | (problem_num, url) :: later =>
      match fetch_page k url with
      | Some _ => (problem_num, url) :: answered (S k) later
      | None => answered (S k) later
      end
  end.

End Driver.

(** An iteration order for a set of links: the first occurrences. *)
Definition link_eq_dec (x y : nat * string) : {x = y} + {x <> y}.
Proof. decide equality; [apply string_dec | apply Nat.eq_dec]. Defined.

Definition first_occurrences (links : list (nat * string)) : list (nat * string) :=
  nodup link_eq_dec links.

(** A main page with two links to problems and one other link. *)
Definition main_page : node :=
  page_of [Tag "ul" []
             [Tag "li" [] [Tag "a" [("href", "/wiki/p2")] [NavigableString "Problem 2"]];
              Tag "li" [] [Tag "a" [("href", "/wiki/key")] [NavigableString "Answer Key"]];
              Tag "li" [] [Tag "a" [("href", "/wiki/p1")] [NavigableString " problem  1 "]];
              Tag "li" [] [Tag "a" [("href", "/wiki/p2")] [NavigableString "Problem 2"]];
              Tag "li" [] [Tag "a" [("href", "/wiki/p40")] [NavigableString "Problem 40"]]]].

(** A resolver of links that writes the path after the origin. *)
Definition join_plain (base url : string) : string := (base ++ url)%string.

(** The same resolver for the links of a page: it raises nothing. *)
Definition join_links (base url : string) : raised + string := inr (base ++ url)%string.

(** A network that answers every request with the same page. *)
Definition always (page : node) (k : nat) (url : string) : option node := Some page.

(** ** What a match of a pattern is

    The matches of a pattern without the order in which [re] tries them:
    [Matches r s caps s' caps'] when [r] can match the beginning of [s] up
    to [s'], the groups going from [caps] to [caps']. *)

Fixpoint all_in (cs : Re.charset) (s : string) : bool :=
  match s with
  | EmptyString => true
  | String c s' => cs c && all_in cs s'
  end.

Inductive Matches : Re.regex -> string -> Re.captures -> string -> Re.captures -> Prop :=
| M_Eps s caps : Matches Re.Eps s caps s caps
| M_Chr c s caps : Matches (Re.Chr c) (String c s) caps s caps
| M_Cls cs c s caps : cs c = true -> Matches (Re.Cls cs) (String c s) caps s caps
| M_Rep cs lo hi greedy run s caps :
    all_in cs run = true -> lo <= String.length run ->
    Matches (Re.Rep cs lo hi greedy) (run ++ s)%string caps s caps
| M_Cat r1 r2 s caps s1 caps1 s2 caps2 :
    Matches r1 s caps s1 caps1 -> Matches r2 s1 caps1 s2 caps2 ->
    Matches (Re.Cat r1 r2) s caps s2 caps2
| M_Alt_left r1 r2 s caps s' caps' :
    Matches r1 s caps s' caps' -> Matches (Re.Alt r1 r2) s caps s' caps'
| M_Alt_right r1 r2 s caps s' caps' :
    Matches r2 s caps s' caps' -> Matches (Re.Alt r1 r2) s caps s' caps'
| M_Grp i r s caps s' caps' :
    Matches r s caps s' caps' ->
    Matches (Re.Grp i r) s caps s' ((i, Re.consumed s s') :: caps')
| M_Ahead r s caps s' caps' :
    Matches r s caps s' caps' -> Matches (Re.Ahead r) s caps s caps'
| M_Eos s caps : Re.at_end s = true -> Matches Re.Eos s caps s caps.

(** The fixtures of the further properties. *)
Definition contest_types : list string := ["AMC8"; "AMC10A"; "AMC10B"; "AMC12A"; "AMC12B"].

(** A network on which only the problem pages answer. *)
Definition problems_only (page : node) (k : nat) (url : string) : option node :=
  match k with
  | 0 => None
  | S _ => Some page
  end.

(** What is left of a content when the images are taken out. *)
Definition without_images (items : list ContentItem) : list ContentItem :=
  filter (fun item => match item with Image _ _ _ _ _ => false | _ => true end) items.

(** An image resolver for which every download fails. *)
Definition never_downloads (img_url : string) (problem_num : nat) (img_type : string)
  : option string := None.

(** What [lstrip] leaves is empty or begins with a character that is not
    whitespace. *)
Definition starts_clean (s : string) : Prop :=
  match s with
  | EmptyString => True
  | String c _ => PyStr.is_space c = false
  end.

(** The solutions so far: numbers from 1 up to a bound, increasing along
    the list, no content empty. *)
Definition solutions_below (bound : nat) (solutions : list SolutionRecord) : Prop :=
  StronglySorted lt (map sol_number solutions)
  /\ Forall (fun s => 1 <= sol_number s < bound /\ sol_content s <> []) solutions.

(** The URL that [download_image] requests: a URL that does not begin with
    "http" is joined to the origin. *)
Definition requested_url (urljoin : string -> string -> string) (img_url : string)
  : string :=
  if negb (PyStr.startswith img_url "http") then urljoin BASE_URL img_url else img_url.

(** Sample collaborators of the image resolver: every transfer succeeds,
    the extension is that of a PNG file, and the hash of a URL is its
    length, or minus its length. *)
Definition png_ext (url : string) : string := ".png".
Definition length_hash (url : string) : Z := Z.of_nat (String.length url).
Definition transfers (url filename : string) : bool := true.

(** The part of a contest type after "AMC": "8", "10A", "12B". *)
Definition after_amc (contest_type : string) : string :=
  substring 3 (String.length contest_type - 3) contest_type.

(** The boundary of the problem region in the words of its description:
    a heading ([h2] or [h3]) whose stripped, lowered text contains one of
    the words, or a [span] whose identifier begins with "Solution". *)
Definition heading_containing (words : list string) (n : node) : bool :=
  match n with
  | Tag name _ _ =>
      (String.eqb name "h2" || String.eqb name "h3")
      && existsb (fun word => PyStr.contains word (PyStr.lower (PyStr.strip (get_text n))))
                 words
  | NavigableString _ => false
  end.

Definition solution_anchor (n : node) : bool :=
  match n with
  | Tag name a _ =>
      String.eqb name "span"
      && match get a "id" with
         | Some id => PyStr.startswith id "Solution"
         | None => false
         end
  | NavigableString _ => false
  end.

Definition region_boundary (words : list string) (n : node) : bool :=
  heading_containing words n || solution_anchor n.

Definition boundary_words : list string := ["solution"; "see also"; "video solution"].

(** A page whose first solution has its anchor in a heading that reads
    "Answer". *)
Definition page_with_nested_anchor : node :=
  page_of [headline "Problem" "Problem";
           paragraph "How many are there?";
           headline "Solution_1" "Answer";
           paragraph "Seven."].

Definition heading_of_page_with_nested_anchor : loc :=
  match find_problem_heading page_with_nested_anchor with
  | Some problem_heading => problem_heading
  | None => root page_with_nested_anchor
  end.

(** * Properties *)

Unset Implicit Arguments.

(** ** The tree walker *)

Section WalkerFacts.

Variable download_image : string -> nat -> string -> option string.
Variable markup : node -> string.

Abbreviation walk := (extract_content_with_images download_image markup).
Abbreviation walk_child := (child_content download_image markup).

(** The walk of a tag is the walk of its children, one after the other. *)
Lemma walk_tag nm a children problem_num img_type :
  walk (Tag nm a children) problem_num img_type
  = flat_map (fun child => walk_child child problem_num img_type) children.
Proof.
  simpl. apply flat_map_ext. intros [s | name a' kids]; reflexivity.
Qed.

Lemma walk_tag_app nm a before after problem_num img_type :
  walk (Tag nm a (before ++ after)) problem_num img_type
  = walk (Tag nm a before) problem_num img_type
    ++ walk (Tag nm a after) problem_num img_type.
Proof. rewrite !walk_tag. apply flat_map_app. Qed.

Lemma walk_tag_cons nm a child after problem_num img_type :
  walk (Tag nm a (child :: after)) problem_num img_type
  = walk_child child problem_num img_type
    ++ walk (Tag nm a after) problem_num img_type.
Proof. rewrite !walk_tag. reflexivity. Qed.

Lemma text_item_no_line_break s : ~ In LineBreak (text_item s).
Proof.
  unfold text_item. destruct (PyStr.truthy (PyStr.strip s)); simpl; intuition discriminate.
Qed.

Lemma image_item_no_line_break a problem_num img_type :
  ~ In LineBreak (image_item download_image a problem_num img_type).
Proof.
  unfold image_item.
  destruct (py_or _ _) as [src|]; [|intros []].
  destruct (PyStr.truthy src); [|intros []].
  destruct (download_image src problem_num img_type) as [lp|]; [|intros []].
  destruct (PyStr.truthy lp); simpl; intuition discriminate.
Qed.

(** A [br] is one of the names of the container branch. *)
Lemma br_is_container name :
  PyStr.mem name containers = false -> String.eqb name "br" = false.
Proof.
  intros H. destruct (String.eqb name "br") eqn:E; [|reflexivity].
  apply String.eqb_eq in E. subst name. discriminate H.
Qed.

(** The walk never produces a line-break item: the branch that would is
    behind the container branch, which takes every [br]. *)
Lemma walk_never_line_break element :
  forall problem_num img_type, ~ In LineBreak (walk element problem_num img_type).
Proof.
  induction element
    as [s | nm a children IH | | c rest IHc IHrest]
    using node_rect'
    with (Q := fun l => forall problem_num img_type,
                   ~ In LineBreak (flat_map (fun child => walk_child child problem_num img_type) l));
    intros problem_num img_type.
  - apply text_item_no_line_break.
  - rewrite walk_tag. apply IH.
  - intros [].
  - cbn [flat_map]. rewrite in_app_iff. intros [H | H]; [|exact (IHrest _ _ H)].
    destruct c as [s | name a kids]; unfold child_content in H.
    + exact (text_item_no_line_break _ H).
    + destruct (String.eqb name "img").
      { exact (image_item_no_line_break _ _ _ H). }
      destruct (String.eqb name "a" && is_found (find_img (Tag name a kids))).
      { destruct (find_img (Tag name a kids)); [|destruct H].
        exact (image_item_no_line_break _ _ _ H). }
      destruct (PyStr.mem name containers) eqn:Hc.
      { exact (IHc _ _ H). }
      rewrite (br_is_container _ Hc) in H.
      destruct (PyStr.truthy _); simpl in H; intuition discriminate.
Qed.

(** What the fallback branch yields for one child. *)
Lemma walk_child_falls_back child problem_num img_type :
  falls_back child = true ->
  walk_child child problem_num img_type
  = if PyStr.truthy (get_text_strip child)
    then [RawFragment (get_text_strip child) (markup child) (name_of child)]
    else [].
Proof.
  unfold falls_back. destruct child as [s | name a kids]; [discriminate|].
  cbn [is_tag name_of andb]. intros H.
  apply andb_prop in H as [H Hc]. apply andb_prop in H as [Himg Ha].
  apply negb_true_iff in Hc, Himg, Ha.
  unfold child_content. rewrite Himg, Ha, Hc, (br_is_container _ Hc). reflexivity.
Qed.

End WalkerFacts.

(** C2 (the code departs from the claim): a [br] leaves no item at all.
    Wherever it stands among its siblings, the walk of the parent is the
    walk of the siblings before it followed by the walk of those after it,
    and no [LineBreak] is in the result: the container branch lists [br] and
    is tested first, so the branch that appends the line break is never
    reached.  In a paragraph with a [br] between two texts the walk returns
    the two texts. *)
Theorem br_child_leaves_no_line_break :
  forall download_image markup problem_num img_type,
    (forall nm a before br_attrs after,
        extract_content_with_images download_image markup
          (Tag nm a (before ++ Tag "br" br_attrs [] :: after)) problem_num img_type
        = extract_content_with_images download_image markup (Tag nm a before)
            problem_num img_type
          ++ extract_content_with_images download_image markup (Tag nm a after)
               problem_num img_type)
    /\ (forall element,
           ~ In LineBreak
               (extract_content_with_images download_image markup element
                  problem_num img_type))
    /\ extract_content_with_images download_image markup
         (Tag "p" [] [NavigableString "first"; Tag "br" [] []; NavigableString "second"])
         problem_num img_type
       = [Text "first"; Text "second"].
Proof.
  intros dl mk pn it. split; [|split].
  - intros nm a before br_attrs after.
    rewrite walk_tag_app, walk_tag_cons. reflexivity.
  - intros element. apply walk_never_line_break.
  - reflexivity.
Qed.

(** C3, as stated, fails: a table holding only an image is a fallback node
    and the walk yields nothing for it, not one [RawFragment]. *)
Lemma image_only_table_yields_no_fragment :
  ~ (forall child,
        falls_back child = true ->
        exists visible html tag,
          child_content saved open_tag child 1 "problem" = [RawFragment visible html tag]).
Proof.
  intros H. destruct (H image_table eq_refl) as (v & h & t & E). discriminate E.
Qed.

(** C3, amended: a child that is neither an image, nor a link around an
    image, nor a container contributes, at its place among its siblings, one
    [RawFragment] with its stripped text, its markup and its tag name when
    that text is not empty, and nothing when it is empty. *)
Theorem fallback_child_yields_fragment_when_text :
  forall download_image markup child nm a before after problem_num img_type,
    falls_back child = true ->
    extract_content_with_images download_image markup
      (Tag nm a (before ++ child :: after)) problem_num img_type
    = extract_content_with_images download_image markup (Tag nm a before) problem_num img_type
      ++ (if PyStr.truthy (get_text_strip child)
          then [RawFragment (get_text_strip child) (markup child) (name_of child)]
          else [])
      ++ extract_content_with_images download_image markup (Tag nm a after) problem_num img_type.
Proof.
  intros dl mk child nm a before after pn it H.
  rewrite walk_tag_app, walk_tag_cons, (walk_child_falls_back dl mk child pn it H).
  reflexivity.
Qed.

Lemma fallback_child_yields_fragment_when_text_witness :
  falls_back (Tag "b" [] [NavigableString " bold "]) = true /\
  extract_content_with_images saved open_tag
    (Tag "p" [] ([NavigableString "so "] ++ Tag "b" [] [NavigableString " bold "]
                 :: [image_table]))
    4 "problem"
  = [Text "so"; RawFragment "bold" "<b>" "b"].
Proof.
  split; [reflexivity|].
  rewrite (fallback_child_yields_fragment_when_text saved open_tag
             (Tag "b" [] [NavigableString " bold "]) "p" []
             [NavigableString "so "] [image_table] 4 "problem" eq_refl).
  reflexivity.
Defined.

(** ** The answer-choice extractor *)

Section ChoiceFacts.

Lemma Forall_flat_map_each (A B : Type) (P : B -> Prop) (f : A -> list B) l :
  (forall x, Forall P (f x)) -> Forall P (flat_map f l).
Proof.
  intros H. induction l as [|x l IH]; simpl; [constructor|].
  apply Forall_app. split; [apply H | exact IH].
Qed.

(** When no text pattern matched, the text stage appended nothing. *)
Lemma text_cascade_not_found patterns txt acc :
  snd (text_cascade patterns txt acc) = false ->
  fst (text_cascade patterns txt acc) = acc.
Proof.
  induction patterns as [|pattern later IH]; simpl; [reflexivity|].
  destruct (Re.findall2 pattern txt); [exact IH | discriminate].
Qed.

Lemma text_choice_source m : Forall (fun c => source c = None) (text_choice m).
Proof.
  unfold text_choice. destruct (_ && _); repeat constructor.
Qed.

(** Every choice the text stage appends comes without a source. *)
Lemma text_cascade_source patterns txt acc :
  Forall (fun c => source c = None) acc ->
  Forall (fun c => source c = None) (fst (text_cascade patterns txt acc)).
Proof.
  intros Hacc. induction patterns as [|pattern later IH]; simpl; [exact Hacc|].
  destruct (Re.findall2 pattern txt) as [|m ms]; [exact IH|].
  cbn [fst]. apply Forall_app. split; [exact Hacc|].
  exact (Forall_flat_map_each _ _ _ text_choice (m :: ms) text_choice_source).
Qed.

(** One letter of an alt text gives no choice or one choice, with that
    letter and the source "image_alt". *)
Lemma alt_choice_cases alt_text l :
  alt_choice alt_text l = []
  \/ exists t, alt_choice alt_text l = [mkChoice l t (Some "image_alt")].
Proof.
  unfold alt_choice. destruct (Re.search _ _) as [m|]; [|now left].
  destruct (PyStr.truthy _); [right; eexists; reflexivity | now left].
Qed.

Lemma alt_choices_source alt_text :
  Forall (fun c => source c = Some "image_alt") (alt_choices alt_text).
Proof.
  unfold alt_choices. apply Forall_flat_map_each. intros l.
  destruct (alt_choice_cases alt_text l) as [E | [t E]]; rewrite E; repeat constructor.
Qed.

Lemma alt_letters_within alt_text ls c :
  In c (flat_map (alt_choice alt_text) ls) -> In (letter c) ls.
Proof.
  rewrite in_flat_map. intros (l & Hl & Hc).
  destruct (alt_choice_cases alt_text l) as [E | [t E]]; rewrite E in Hc.
  - destruct Hc.
  - destruct Hc as [<- | []]. exact Hl.
Qed.

(** The letters of the choices of one alt text do not repeat. *)
Lemma alt_letters_distinct alt_text ls :
  NoDup ls -> NoDup (map letter (flat_map (alt_choice alt_text) ls)).
Proof.
  induction 1 as [|l ls Hnotin Hnodup IH]; simpl; [constructor|].
  rewrite map_app.
  destruct (alt_choice_cases alt_text l) as [E | [t E]]; rewrite E; simpl; [exact IH|].
  constructor; [|exact IH].
  rewrite in_map_iff. intros (c & Hc & Hin). apply alt_letters_within in Hin.
  rewrite Hc in Hin. exact (Hnotin Hin).
Qed.

Lemma letters_distinct : NoDup letters.
Proof.
  unfold letters.
  repeat (constructor; [simpl; intuition discriminate|]). constructor.
Qed.

(** One step of the image scan: the item is an image with a non-empty alt
    text that has the marker, or the step is the induction hypothesis. *)
Ltac scan_cases item IH :=
  destruct item as [? | ? ? ? ? ? | | ? ? ?]; try apply IH;
  match goal with
  | |- context [PyStr.truthy ?alt_text] =>
      destruct (PyStr.truthy alt_text); [|apply IH];
      destruct (has_marker alt_text); [|apply IH]
  end.

(** Started on an empty list, the image scan leaves it empty or holds the
    choices of exactly one alt text. *)
Lemma alt_scan_from_nothing items :
  alt_scan items [] = [] \/ exists alt_text, alt_scan items [] = alt_choices alt_text.
Proof.
  induction items as [|item rest IH]; simpl; [now left|].
  scan_cases item IH.
  match goal with |- context [alt_choices ?alt_text] =>
    destruct (alt_choices alt_text) as [|c cs] eqn:E; [exact IH|];
    right; exists alt_text; symmetry; exact E
  end.
Qed.

(** The scan of a list in two parts: the second part is scanned only when
    the first has left nothing. *)
Lemma alt_scan_app before after :
  alt_scan (before ++ after) []
  = match alt_scan before [] with
    | [] => alt_scan after []
    | found => found
    end.
Proof.
  induction before as [|item rest IH]; simpl; [reflexivity|].
  scan_cases item IH.
  destruct (alt_choices _) as [|c cs]; [exact IH | reflexivity].
Qed.

(** An image without the marker changes neither the scan nor the text. *)
Lemma alt_scan_skips src lp alt_text w h before after acc :
  has_marker alt_text = false ->
  alt_scan (before ++ Image src lp alt_text w h :: after) acc
  = alt_scan (before ++ after) acc.
Proof.
  intros Hm. revert acc.
  induction before as [|item rest IH]; intros acc; simpl.
  - rewrite Hm. destruct (PyStr.truthy alt_text); reflexivity.
  - scan_cases item IH.
    destruct (acc ++ alt_choices _); [apply IH | reflexivity].
Qed.

Lemma problem_text_skips_image src lp alt_text w h before after :
  problem_text (before ++ Image src lp alt_text w h :: after)
  = problem_text (before ++ after).
Proof.
  unfold problem_text, problem_text_parts. rewrite !flat_map_app. reflexivity.
Qed.

(** The extractor in its two cases. *)
Lemma extract_answer_choices_found content :
  found_choices content = true ->
  extract_answer_choices content
  = fst (text_cascade answer_patterns (problem_text content) []).
Proof.
  unfold found_choices, extract_answer_choices.
  destruct (text_cascade _ _ _) as [acc found]. simpl. now intros ->.
Qed.

Lemma extract_answer_choices_not_found content :
  found_choices content = false ->
  extract_answer_choices content = alt_scan content [].
Proof.
  intros H. unfold extract_answer_choices.
  pose proof (text_cascade_not_found answer_patterns (problem_text content) [] H) as E.
  unfold found_choices in H.
  destruct (text_cascade _ _ _) as [acc found]. simpl in *. subst. reflexivity.
Qed.

Lemma extract_answer_choices_source content :
  Forall (fun c => source c = if found_choices content then None else Some "image_alt")
         (extract_answer_choices content).
Proof.
  destruct (found_choices content) eqn:F.
  - rewrite (extract_answer_choices_found _ F).
    apply text_cascade_source. constructor.
  - rewrite (extract_answer_choices_not_found _ F).
    destruct (alt_scan_from_nothing content) as [E | [alt_text E]]; rewrite E.
    + constructor.
    + apply alt_choices_source.
Qed.

Lemma extract_answer_choices_distinct content :
  found_choices content = false ->
  NoDup (map letter (extract_answer_choices content)).
Proof.
  intros F. rewrite (extract_answer_choices_not_found _ F).
  destruct (alt_scan_from_nothing content) as [E | [alt_text E]]; rewrite E.
  - constructor.
  - apply alt_letters_distinct, letters_distinct.
Qed.

End ChoiceFacts.

(** What [extract_problem] returns, read through its content. *)
Lemma extract_problem_choices download_image markup soup problem_num :
  answer_choices (extract_problem download_image markup soup problem_num)
  = extract_answer_choices
      (content (extract_problem download_image markup soup problem_num)).
Proof.
  unfold extract_problem. destruct (find_problem_heading soup); reflexivity.
Qed.

(** C1 (the code departs from the claim): on the text of the claim the
    extractor returns choice A alone.  The first pattern asks for a dollar
    sign right before [\textbf], which only choice A has; it matches once,
    wins the cascade, and the second pattern, which finds A and B, is never
    tried. *)
Theorem spec_example_text_keeps_only_choice_A :
  let problem_text := "The answer is $\textbf{(A)}\ 5 \qquad \textbf{(B)}\ 10$" in
  extract_answer_choices [Text problem_text] = [mkChoice "A" "5" None]
  /\ Re.findall2 answer_pattern_1 problem_text = [("A", " 5 ")]
  /\ Re.findall2 answer_pattern_2 problem_text = [("A", " 5 "); ("B", " 10")].
Proof. vm_compute. repeat split. Qed.

(** C5, as stated, fails: a problem text that names choice A twice gives
    two choices with the letter A. *)
Lemma text_choices_repeat_a_letter :
  ~ (forall soup problem_num,
        NoDup (map letter (answer_choices (extract_problem saved open_tag soup problem_num)))).
Proof.
  intros H. specialize (H page_with_repeated_letter 1). vm_compute in H.
  inversion H as [|x l Hnotin Hrest]. apply Hnotin. left. reflexivity.
Qed.

(** C5, amended: when no text pattern matched, so that the choices come from
    the image-alt fallback, the letters of the answer choices of a page are
    pairwise distinct. *)
Theorem image_alt_choices_have_distinct_letters :
  forall download_image markup soup problem_num,
    found_choices (content (extract_problem download_image markup soup problem_num)) = false ->
    NoDup (map letter (answer_choices (extract_problem download_image markup soup problem_num))).
Proof.
  intros dl mk soup pn F. rewrite extract_problem_choices.
  apply extract_answer_choices_distinct, F.
Qed.

Lemma image_alt_choices_have_distinct_letters_witness :
  found_choices (content (extract_problem saved open_tag page_with_image_choices 3)) = false
  /\ NoDup (map letter (answer_choices (extract_problem saved open_tag page_with_image_choices 3))).
Proof.
  split; [vm_compute; reflexivity|].
  apply (image_alt_choices_have_distinct_letters saved open_tag page_with_image_choices 3).
  vm_compute. reflexivity.
Defined.

(** C6, as stated, fails: the choice found in a text carries no source at
    all, not the source "text". *)
Lemma text_choice_carries_no_source :
  ~ (forall content c,
        In c (extract_answer_choices content) ->
        source c = Some (if found_choices content then "text" else "image_alt")).
Proof.
  intros H.
  specialize (H [Text "$\textbf{(A)}\ 5$"] (mkChoice "A" "5" None)).
  vm_compute in H. specialize (H (or_introl eq_refl)). discriminate H.
Qed.

(** C6, amended: every answer choice of a page has no source when a text
    pattern matched, and the source "image_alt" when the choices come from
    the image-alt fallback. *)
Theorem choice_source_tells_image_alt_only :
  forall download_image markup soup problem_num,
    let problem_data := extract_problem download_image markup soup problem_num in
    Forall (fun c => source c = if found_choices (content problem_data)
                                then None else Some "image_alt")
           (answer_choices problem_data).
Proof.
  intros dl mk soup pn. cbv zeta. rewrite extract_problem_choices.
  apply extract_answer_choices_source.
Qed.

(** C8, as stated, fails: when an image before the one of the claim has
    choices in its alt text, the scan stops there, and the extractor
    returns the choices of that earlier image. *)
Lemma earlier_image_takes_the_choices :
  ~ (forall content src local_path width height,
        found_choices content = false ->
        In (Image src local_path "\textbf{(A)}\ 3\qquad\textbf{(B)}\ 4" width height) content ->
        extract_answer_choices content
        = [mkChoice "A" "3" (Some "image_alt"); mkChoice "B" "4" (Some "image_alt")]).
Proof.
  intros H.
  specialize (H [Image "/a.png" "images/a.png" "\textbf{(A)}\ 1" None None;
                 Image "/c.png" "images/c.png" "\textbf{(A)}\ 3\qquad\textbf{(B)}\ 4"
                       None None]
                "/c.png" "images/c.png" None None).
  vm_compute in H. specialize (H eq_refl (or_intror (or_introl eq_refl))).
  discriminate H.
Qed.

(** C8, amended: in a problem content where no text pattern matches and no
    image before it leaves a choice, the image with the alt text
    [\textbf{(A)}\ 3\qquad\textbf{(B)}\ 4] gives the choices A with text 3
    and B with text 4, both with the source "image_alt". *)
Theorem image_alt_example_gives_A3_B4 :
  forall before after src local_path width height,
    let image := Image src local_path "\textbf{(A)}\ 3\qquad\textbf{(B)}\ 4" width height in
    found_choices (before ++ image :: after) = false ->
    alt_scan before [] = [] ->
    extract_answer_choices (before ++ image :: after)
    = [mkChoice "A" "3" (Some "image_alt"); mkChoice "B" "4" (Some "image_alt")].
Proof.
  intros before after src lp w h image F Hbefore.
  rewrite (extract_answer_choices_not_found _ F), alt_scan_app, Hbefore.
  vm_compute. reflexivity.
Qed.

Lemma image_alt_example_gives_A3_B4_witness :
  found_choices ([Text "Which one?"]
                 ++ Image "/c.png" "images/problem.png" "\textbf{(A)}\ 3\qquad\textbf{(B)}\ 4"
                          None None :: [Text "Choose."]) = false
  /\ alt_scan [Text "Which one?"] [] = []
  /\ extract_answer_choices
       ([Text "Which one?"]
        ++ Image "/c.png" "images/problem.png" "\textbf{(A)}\ 3\qquad\textbf{(B)}\ 4"
                 None None :: [Text "Choose."])
     = [mkChoice "A" "3" (Some "image_alt"); mkChoice "B" "4" (Some "image_alt")].
Proof.
  split; [vm_compute; reflexivity|]. split; [reflexivity|].
  apply (image_alt_example_gives_A3_B4 [Text "Which one?"] [Text "Choose."]
           "/c.png" "images/problem.png" None None).
  - vm_compute. reflexivity.
  - reflexivity.
Defined.

(** C10: an image whose alt text has neither [\textbf{(A)}] nor
    [textbf{(A)}] in it gives no choice and is passed over: the image scan
    goes on as if the image were not there, and so does the extractor,
    whatever markers for the other letters the alt text has. *)
Theorem image_without_A_marker_is_passed_over :
  forall src local_path alt_text width height,
    has_marker alt_text = false ->
    (forall rest answer_choices,
        alt_scan (Image src local_path alt_text width height :: rest) answer_choices
        = alt_scan rest answer_choices)
    /\ (forall before after,
           extract_answer_choices (before ++ Image src local_path alt_text width height :: after)
           = extract_answer_choices (before ++ after)).
Proof.
  intros src lp alt_text w h Hm. split.
  - intros rest acc. exact (alt_scan_skips src lp alt_text w h [] rest acc Hm).
  - intros before after. unfold extract_answer_choices.
    rewrite problem_text_skips_image.
    destruct (text_cascade _ _ _) as [acc found].
    destruct found; [reflexivity|]. apply alt_scan_skips, Hm.
Qed.

Lemma image_without_A_marker_is_passed_over_witness :
  let alt_text := "\textbf{(B)}\ 3\qquad\textbf{(C)}\ 4\qquad\textbf{(D)}\ 5\qquad\textbf{(E)}\ 6" in
  has_marker alt_text = false
  /\ alt_scan [Image "/c.png" "images/problem.png" alt_text None None] [] = []
  /\ extract_answer_choices [Image "/c.png" "images/problem.png" alt_text None None] = [].
Proof.
  cbv zeta. split; [vm_compute; reflexivity|].
  destruct (image_without_A_marker_is_passed_over "/c.png" "images/problem.png"
              "\textbf{(B)}\ 3\qquad\textbf{(C)}\ 4\qquad\textbf{(D)}\ 5\qquad\textbf{(E)}\ 6"
              None None) as [Hscan Hextract].
  - vm_compute. reflexivity.
  - split.
    + exact (Hscan [] []).
    + exact (Hextract [] []).
Defined.

(** ** The section segmenter *)

Section SegmenterFacts.

(** Moving to the next sibling walks down the list of the next siblings. *)
Lemma tags_after_next nm a before after up x rest :
  tags_after nm a before after up = x :: rest -> find_next_siblings x = rest.
Proof.
  revert before. induction after as [|c cs IH]; intros before; simpl; [discriminate|].
  destruct (is_tag c); simpl.
  - intros E. injection E as <- <-. reflexivity.
  - apply IH.
Qed.

Lemma find_next_siblings_next l x rest :
  find_next_siblings l = x :: rest -> find_next_siblings x = rest.
Proof.
  unfold find_next_siblings at 1. destruct (above l) as [|f up]; [discriminate|].
  apply tags_after_next.
Qed.

(** The [while current] loop comes to its end within one step per
    sibling, and collects what [problem_section] collects. *)
Lemma problem_loop_finishes later :
  forall cur acc steps,
    find_next_siblings cur = later ->
    List.length later + 2 <= steps ->
    problem_loop steps (Some cur) acc = Some (acc ++ problem_section (cur :: later)).
Proof.
  induction later as [|x rest IH]; intros cur acc steps Hnext Hsteps;
    (destruct steps as [|steps]; [simpl in Hsteps; lia|]);
    simpl; destruct (problem_stops (focus cur)); try (now rewrite app_nil_r);
    unfold find_next_sibling; rewrite Hnext; simpl.
  - destruct steps as [|steps]; [simpl in Hsteps; lia|]. reflexivity.
  - rewrite (IH x (acc ++ [focus cur]) steps).
    + rewrite <- app_assoc. reflexivity.
    + exact (find_next_siblings_next _ _ _ Hnext).
    + simpl in Hsteps. lia.
Qed.

Lemma problem_loop_from current :
  problem_loop (List.length (from current) + 1) current []
  = Some (problem_section (from current)).
Proof.
  destruct current as [cur|]; [|reflexivity].
  unfold from. rewrite (problem_loop_finishes (find_next_siblings cur) cur [] _ eq_refl); trivial.
  simpl. lia.
Qed.

(** What is collected is the siblings up to the first one that stops the
    loop, that one left out. *)
Lemma problem_section_split siblings :
  exists dropped,
    map focus siblings = problem_section siblings ++ dropped
    /\ Forall (fun n => problem_stops n = false) (problem_section siblings)
    /\ (dropped = [] \/ exists b rest, dropped = b :: rest /\ problem_stops b = true).
Proof.
  induction siblings as [|cur later (dropped & Hsplit & Hkept & Hdropped)]; simpl.
  - exists []. repeat split; [constructor | now left].
  - destruct (problem_stops (focus cur)) eqn:Hstop.
    + exists (focus cur :: map focus later). repeat split; [constructor|].
      right. now exists (focus cur), (map focus later).
    + exists dropped. simpl. rewrite Hsplit. repeat split; trivial.
      constructor; trivial.
Qed.

Lemma find_all_none test l :
  Forall (fun t => test (focus t) = false) (descendants l) -> find_all test l = [].
Proof.
  unfold find_all. induction 1 as [|t ts Ht _ IH]; simpl; [reflexivity|].
  rewrite Ht, andb_false_r. exact IH.
Qed.

Lemma find_all_within test l t : In t (find_all test l) -> In t (descendants l).
Proof. unfold find_all. rewrite filter_In. tauto. Qed.

Lemma find_all_passes test l t : In t (find_all test l) -> test (focus t) = true.
Proof.
  unfold find_all. rewrite filter_In. intros [_ H]. apply andb_prop in H. tauto.
Qed.

Lemma list_find_none (A : Type) (f : A -> bool) l :
  (forall x, In x l -> f x = false) -> List.find f l = None.
Proof.
  induction l as [|x l IH]; simpl; intros H; [reflexivity|].
  rewrite (H x (or_introl eq_refl)). apply IH. intros y Hy. apply H. now right.
Qed.

(** No span carries the identifier and no candidate heading has the text
    "problem": the anchor is not found. *)
Lemma find_problem_heading_none soup :
  Forall (fun t => named_with "span" "id" "Problem" (focus t) = false)
         (descendants (root soup)) ->
  Forall (fun t => named ["h2"; "h3"; "span"] (focus t) = true ->
                   PyStr.lower (PyStr.strip (get_text (focus t))) <> "problem")
         (descendants (root soup)) ->
  find_problem_heading soup = None.
Proof.
  intros Hid Htext. unfold find_problem_heading, find.
  rewrite (find_all_none _ _ Hid). simpl.
  apply list_find_none. intros t Ht. unfold is_problem_heading.
  rewrite Forall_forall in Hid, Htext.
  rewrite (Hid t (find_all_within _ _ _ Ht)), orb_false_r.
  apply String.eqb_neq, Htext.
  - exact (find_all_within _ _ _ Ht).
  - exact (find_all_passes _ _ _ Ht).
Qed.

End SegmenterFacts.

(** C4: on a page with no [Solution_2] anchor and with a [Solution_3]
    anchor, every solution returned has a number below 2, whatever the cap
    on the number of solutions: the scan of the indices ends at the gap. *)
Theorem gap_at_solution_2_ends_the_scan :
  forall download_image markup soup problem_num max_solutions,
    find (named_with "span" "id" "Solution_2") (root soup) = None ->
    find (named_with "span" "id" "Solution_3") (root soup) <> None ->
    Forall (fun s => sol_number s < 2)
           (extract_solutions download_image markup soup problem_num max_solutions).
Proof.
  intros dl mk soup pn max Hgap _. unfold extract_solutions.
  destruct max as [|todo]; [constructor|].
  cbn [solutions_loop].
  change ("Solution_" ++ PyStr.of_nat 1)%string with "Solution_1".
  destruct (find (named_with "span" "id" "Solution_1") (root soup)) as [span|]; [|constructor].
  destruct (solution_heading_of soup 1 span) as [heading|]; [|constructor].
  set (found := match solution_section _ _ _ _ _ _ with [] => [] | _ :: _ => _ end).
  assert (Hfound : Forall (fun s => sol_number s < 2) found).
  { subst found. destruct (solution_section _ _ _ _ _ _); repeat constructor. }
  destruct todo as [|todo]; [exact Hfound|].
  cbn [solutions_loop].
  change ("Solution_" ++ PyStr.of_nat 2)%string with "Solution_2".
  rewrite Hgap. exact Hfound.
Qed.

Lemma gap_at_solution_2_ends_the_scan_witness :
  find (named_with "span" "id" "Solution_2") (root page_with_gap) = None
  /\ find (named_with "span" "id" "Solution_3") (root page_with_gap) <> None
  /\ Forall (fun s => sol_number s < 2)
            (extract_solutions saved open_tag page_with_gap 12 3).
Proof.
  split; [reflexivity|]. split; [discriminate|].
  apply (gap_at_solution_2_ends_the_scan saved open_tag page_with_gap 12 3).
  - reflexivity.
  - discriminate.
Defined.

(** C7: on a page where no span has the identifier [Problem] and none of
    the tags searched as headings ([h2], [h3], [span]) has a text that is
    "problem" once stripped and lowered, [extract_problem] returns the
    record with the problem number, an empty content and no answer choice.
    Every operation on the way is total: there is nothing to raise. *)
Theorem page_without_problem_anchor_is_empty :
  forall download_image markup soup problem_num,
    Forall (fun t => named_with "span" "id" "Problem" (focus t) = false)
           (descendants (root soup)) ->
    Forall (fun t => named ["h2"; "h3"; "span"] (focus t) = true ->
                     PyStr.lower (PyStr.strip (get_text (focus t))) <> "problem")
           (descendants (root soup)) ->
    extract_problem download_image markup soup problem_num = mkProblem problem_num [] [].
Proof.
  intros dl mk soup pn Hid Htext. unfold extract_problem.
  rewrite (find_problem_heading_none soup Hid Htext). reflexivity.
Qed.

Lemma page_without_problem_anchor_is_empty_witness :
  extract_problem saved open_tag page_without_problem 9 = mkProblem 9 [] [].
Proof.
  apply (page_without_problem_anchor_is_empty saved open_tag page_without_problem 9).
  - vm_compute. repeat constructor.
  - vm_compute. repeat (constructor; [intro; discriminate|]). constructor.
Defined.

(** The tests of the loop are the boundary as it is described. *)
Lemma problem_stops_is_boundary n :
  problem_stops n = region_boundary boundary_words n.
Proof.
  destruct n as [s | name a kids]; [reflexivity|].
  unfold problem_stops, region_boundary, heading_stops, anchor_stops,
    heading_containing, solution_anchor, named, PyStr.mem, boundary_words.
  cbn [name_of attrs_of existsb]. rewrite !orb_false_r, <- !orb_assoc. f_equal.
  destruct (get a "id") as [id|]; [|reflexivity].
  destruct id; reflexivity.
Qed.

Lemma problem_section_boundary siblings :
  exists dropped,
    map focus siblings = problem_section siblings ++ dropped
    /\ Forall (fun n => region_boundary boundary_words n = false) (problem_section siblings)
    /\ (dropped = []
        \/ exists b rest, dropped = b :: rest /\ region_boundary boundary_words b = true).
Proof.
  destruct (problem_section_split siblings) as (dropped & Hsplit & Hkept & Hdropped).
  exists dropped. split; [exact Hsplit|]. split.
  - eapply Forall_impl; [|exact Hkept]. intros n Hn.
    now rewrite <- problem_stops_is_boundary.
  - destruct Hdropped as [-> | (b & rest & -> & Hb)]; [now left|].
    right. exists b, rest. now rewrite <- problem_stops_is_boundary.
Qed.

(** C9, as stated, fails: an anchor identifier that begins with "Solution"
    ends the region only on a sibling that is itself the span.  After the
    problem, a heading that reads "Answer" around the span [Solution_1] is
    collected into the region, and so is the paragraph after it. *)
Lemma nested_solution_anchor_is_collected :
  ~ (forall soup problem_heading,
        find_problem_heading soup = Some problem_heading ->
        forallb (fun n => forallb (fun t => negb (solution_anchor (focus t)))
                                  (root n :: descendants (root n)))
                (problem_region problem_heading) = true).
Proof.
  intros H.
  specialize (H page_with_nested_anchor heading_of_page_with_nested_anchor).
  vm_compute in H. specialize (H eq_refl). discriminate H.
Qed.

(** C9, amended: when the problem anchor is found, the loop over the
    siblings comes to its end within one step per sibling, and the region
    it returns is the run of siblings before the first sibling that is
    itself an [h2] or [h3] whose stripped, lowered text contains
    "solution", "see also" or "video solution", or is itself a [span] whose
    identifier begins with "Solution": that sibling and all the later ones
    are left out, and the content of the problem is the walk of the
    region. *)
Theorem problem_region_ends_at_first_boundary :
  forall download_image markup soup problem_num problem_heading,
    find_problem_heading soup = Some problem_heading ->
    let siblings := from (first_sibling problem_heading) in
    exists kept dropped,
      map focus siblings = kept ++ dropped
      /\ problem_loop (List.length siblings + 1) (first_sibling problem_heading) [] = Some kept
      /\ problem_region problem_heading = kept
      /\ Forall (fun n => region_boundary boundary_words n = false) kept
      /\ (dropped = []
          \/ exists b rest, dropped = b :: rest /\ region_boundary boundary_words b = true)
      /\ content (extract_problem download_image markup soup problem_num)
         = flat_map (fun elem => extract_content_with_images download_image markup
                                   elem problem_num "problem") kept.
Proof.
  intros dl mk soup pn h Hfound siblings.
  destruct (problem_section_boundary siblings) as (dropped & Hsplit & Hkept & Hdropped).
  exists (problem_section siblings), dropped.
  split; [exact Hsplit|]. split; [apply problem_loop_from|].
  split; [reflexivity|]. split; [exact Hkept|]. split; [exact Hdropped|].
  unfold extract_problem. rewrite Hfound. reflexivity.
Qed.

Lemma problem_region_ends_at_first_boundary_witness :
  find_problem_heading page_with_gap = Some heading_of_page_with_gap
  /\ exists kept dropped,
      map focus (from (first_sibling heading_of_page_with_gap)) = kept ++ dropped
      /\ problem_loop (List.length (from (first_sibling heading_of_page_with_gap)) + 1)
                      (first_sibling heading_of_page_with_gap) [] = Some kept
      /\ problem_region heading_of_page_with_gap = kept
      /\ Forall (fun n => region_boundary boundary_words n = false) kept
      /\ (dropped = []
          \/ exists b rest, dropped = b :: rest /\ region_boundary boundary_words b = true)
      /\ content (extract_problem saved open_tag page_with_gap 5)
         = flat_map (fun elem => extract_content_with_images saved open_tag
                                   elem 5 "problem") kept.
Proof.
  split; [vm_compute; reflexivity|].
  apply (problem_region_ends_at_first_boundary saved open_tag page_with_gap 5
           heading_of_page_with_gap).
  vm_compute. reflexivity.
Defined.

(** * Further properties of the scraper *)

(** ** The scraper object and its files *)

(** Case analysis on the chain of comparisons of a contest type. *)
Ltac contest_cases ct :=
  repeat match goal with
         | |- context [String.eqb ct ?c] =>
             destruct (String.eqb_spec ct c); [subst ct|]
         end.

Lemma contest_names_cases ct :
  (In ct contest_types /\ exists name, contest_names ct = Some (name, ct))
  \/ (~ In ct contest_types /\ contest_names ct = None).
Proof.
  unfold contest_names, contest_types. contest_cases ct;
    try (left; split; [simpl; tauto | eexists; reflexivity]).
  right. split; [simpl; intuition congruence | reflexivity].
Qed.

(** X1: the constructor accepts exactly the five contest types.  For one of
    them the scraper keeps the type as its directory name and works under
    base / type / year, with the images in the directory "images" below;
    for any other string it raises the ValueError "Unknown contest type". *)
Theorem scraper_init_accepts_five_contest_types :
  forall ct y base,
    (In ct contest_types
     /\ exists name,
         scraper_init ct y base
         = inr (mkScraper ct y base name ct
                          (base ++ [ct; PyStr.of_nat y])
                          (base ++ [ct; PyStr.of_nat y; "images"])))
    \/ (~ In ct contest_types
        /\ scraper_init ct y base = inl (ValueError ("Unknown contest type: " ++ ct)%string)).
Proof.
  intros ct y base. unfold scraper_init, div.
  destruct (contest_names_cases ct) as [[Hin [name E]] | [Hout E]]; rewrite E.
  - left. split; [exact Hin|]. exists name. rewrite <- !app_assoc. reflexivity.
  - right. split; [exact Hout | reflexivity].
Qed.

Lemma scraper_init_type ct y base self :
  scraper_init ct y base = inr self ->
  In ct contest_types /\ contest_type self = ct /\ year self = y
  /\ output_dir self = div (div base ct) (PyStr.of_nat y).
Proof.
  unfold scraper_init.
  destruct (contest_names_cases ct) as [[Hin [name E]] | [Hout E]]; rewrite E;
    [|discriminate].
  intros H. injection H as <-. repeat split. exact Hin.
Qed.

(** The URLs and the file of a scraper that was constructed. *)
Lemma scraper_urls_and_file :
  forall ct y base self,
    scraper_init ct y base = inr self ->
    get_main_page_url self
    = Some (BASE_URL ++ "/wiki/index.php/" ++ PyStr.of_nat y ++ "_AMC_" ++ after_amc ct)%string
    /\ (forall i,
           problem_url self i
           = Some (BASE_URL ++ "/wiki/index.php?title=" ++ PyStr.of_nat y ++ "_AMC_"
                   ++ after_amc ct ++ "_Problems/Problem_" ++ PyStr.of_nat i)%string)
    /\ contest_name self = ("AMC " ++ after_amc ct)%string
    /\ json_filename self
       = Some (PyStr.lower ct ++ "_" ++ PyStr.of_nat y ++ "_problems.json")%string
    /\ output_file self
       = inr (base ++ [ct; PyStr.of_nat y;
                       (PyStr.lower ct ++ "_" ++ PyStr.of_nat y ++ "_problems.json")%string]).
Proof.
  intros ct y base self H.
  destruct (scraper_init_type _ _ _ _ H) as (Hin & Hct & Hy & Hdir).
  assert (Hname : contest_name self = ("AMC " ++ after_amc ct)%string).
  { revert H. unfold scraper_init, contest_names. unfold contest_types in Hin. simpl in Hin.
    destruct Hin as [<- | [<- | [<- | [<- | [<- | []]]]]]; simpl;
      intros H; injection H as <-; reflexivity. }
  unfold get_main_page_url, problem_url, output_file, json_filename.
  rewrite Hct, Hy, Hdir, Hname. unfold contest_types in Hin. simpl in Hin.
  destruct Hin as [<- | [<- | [<- | [<- | [<- | []]]]]]; repeat split;
    try reflexivity; cbn [String.eqb Ascii.eqb Bool.eqb]; unfold div;
    rewrite <- !app_assoc; reflexivity.
Qed.

(** X2: a scraper that was constructed has the main page URL, the problem
    URLs and the output file of its own year and contest.  For the contest
    type AMC followed by a level (8, 10A, ...) and the year [y], the main
    page is BASE_URL/wiki/index.php/<y>_AMC_<level>, the constructed URL of
    problem [i] is
    BASE_URL/wiki/index.php?title=<y>_AMC_<level>_Problems/Problem_<i>,
    the contest name is "AMC <level>", and the output file is the lowered
    contest type followed by _<y>_problems.json in the output directory:
    the chains of comparisons never fall through to [None] or to an
    unassigned variable. *)
Theorem constructed_scraper_has_its_urls_and_file :
  forall ct y base self,
    scraper_init ct y base = inr self ->
    get_main_page_url self
    = Some (BASE_URL ++ "/wiki/index.php/" ++ PyStr.of_nat y ++ "_AMC_" ++ after_amc ct)%string
    /\ (forall i,
           problem_url self i
           = Some (BASE_URL ++ "/wiki/index.php?title=" ++ PyStr.of_nat y ++ "_AMC_"
                   ++ after_amc ct ++ "_Problems/Problem_" ++ PyStr.of_nat i)%string)
    /\ contest_name self = ("AMC " ++ after_amc ct)%string
    /\ json_filename self
       = Some (PyStr.lower ct ++ "_" ++ PyStr.of_nat y ++ "_problems.json")%string
    /\ output_file self
       = inr (base ++ [ct; PyStr.of_nat y;
                       (PyStr.lower ct ++ "_" ++ PyStr.of_nat y ++ "_problems.json")%string]).
Proof. exact scraper_urls_and_file. Qed.

Lemma constructed_scraper_has_its_urls_and_file_witness :
  exists self,
    scraper_init "AMC10B" 2019 ["data"] = inr self
    /\ get_main_page_url self
       = Some "https://artofproblemsolving.com/wiki/index.php/2019_AMC_10B"
    /\ (forall i,
           problem_url self i
           = Some (BASE_URL ++ "/wiki/index.php?title=" ++ PyStr.of_nat 2019 ++ "_AMC_"
                   ++ after_amc "AMC10B" ++ "_Problems/Problem_" ++ PyStr.of_nat i)%string)
    /\ contest_name self = "AMC 10B"
    /\ json_filename self = Some "amc10b_2019_problems.json"
    /\ output_file self = inr ["data"; "AMC10B"; "2019"; "amc10b_2019_problems.json"].
Proof.
  eexists. split; [reflexivity|].
  apply (constructed_scraper_has_its_urls_and_file "AMC10B" 2019 ["data"]). reflexivity.
Defined.

(** X3: the renderer reads the file the scraper writes.  For a year other
    than 0, the two constructors accept the same contest types; when they
    accept, they agree on the contest name and the JSON file of
    [render_all] is the output file of [scrape_all]; when they refuse, they
    raise the same error. *)
Theorem renderer_reads_the_file_of_the_scraper :
  forall ct y base,
    y <> 0 ->
    match scraper_init ct y base, renderer_init ct (Some y) base with
    | inr self, inr renderer =>
        contest_name self = r_contest_name renderer
        /\ exists file, output_file self = inr file
                        /\ renderer_json_file renderer = Some file
    | inl e, inl e' => e = e'
    | _, _ => False
    end.
Proof.
  intros ct y base Hy. destruct y as [|y]; [contradiction|].
  unfold scraper_init, renderer_init, contest_names, renderer_names.
  contest_cases ct; try reflexivity;
    (split; [reflexivity | eexists; split; reflexivity]).
Qed.

Lemma renderer_reads_the_file_of_the_scraper_witness :
  2024 <> 0
  /\ match scraper_init "AMC8" 2024 ["data"], renderer_init "AMC8" (Some 2024) ["data"] with
     | inr self, inr renderer =>
         contest_name self = r_contest_name renderer
         /\ exists file, output_file self = inr file
                         /\ renderer_json_file renderer = Some file
     | inl e, inl e' => e = e'
     | _, _ => False
     end.
Proof.
  split; [discriminate|].
  apply (renderer_reads_the_file_of_the_scraper "AMC8" 2024 ["data"]). discriminate.
Defined.

(** ** The links to the problems *)

Section LinkFacts.

Variable int_max_str_digits : nat.
Variable urljoin : string -> string -> raised + string.
Variable set_order : list (nat * string) -> list (nat * string).
Variable fetch_page : nat -> string -> option node.

(** A set iterates over its elements, each of them once. *)
Hypothesis set_order_distinct : forall links, NoDup (set_order links).
Hypothesis set_order_elements :
  forall links x, In x (set_order links) <-> In x links.

Abbreviation links_of := (get_problem_links int_max_str_digits urljoin set_order fetch_page).
Abbreviation link_loop := (links_of_page int_max_str_digits urljoin).

Lemma insert_link_perm x sorted : Permutation (insert_link x sorted) (x :: sorted).
Proof.
  induction sorted as [|y rest IH]; simpl; [reflexivity|].
  destruct (fst x <=? fst y); [reflexivity|].
  rewrite IH. apply perm_swap.
Qed.

Lemma sorted_by_number_perm links : Permutation (sorted_by_number links) links.
Proof.
  induction links as [|x rest IH]; simpl; [reflexivity|].
  rewrite insert_link_perm. now constructor.
Qed.

Lemma insert_link_sorted x sorted :
  StronglySorted le (map fst sorted) ->
  StronglySorted le (map fst (insert_link x sorted)).
Proof.
  induction sorted as [|y rest IH]; simpl; intros Hs.
  - repeat constructor.
  - apply StronglySorted_inv in Hs as [Hrest Hy].
    destruct (fst x <=? fst y) eqn:E; simpl.
    + apply Nat.leb_le in E. constructor; [constructor; trivial|].
      constructor; [exact E|].
      eapply Forall_impl; [|exact Hy]. intros n Hn. lia.
    + apply Nat.leb_gt in E. constructor; [apply IH, Hrest|].
      eapply Permutation_Forall.
      * apply Permutation_map, Permutation_sym, insert_link_perm.
      * simpl. constructor; [lia | exact Hy].
  Qed.

Lemma sorted_by_number_sorted links :
  StronglySorted le (map fst (sorted_by_number links)).
Proof.
  induction links as [|x rest IH]; simpl; [constructor | apply insert_link_sorted, IH].
Qed.

(** The number of a link that [link_of] keeps is between 1 and 25. *)
Lemma link_of_range link found x :
  link_of int_max_str_digits urljoin link = inr found ->
  In x found -> 1 <= fst x <= 25.
Proof.
  unfold link_of. destruct (Re.match_at _ _ _) as [m|].
  2:{ intros H. injection H as <-. intros []. }
  destruct (py_int _ _) as [e | n]; [discriminate|].
  destruct (_ && _) eqn:E.
  2:{ intros H. injection H as <-. intros []. }
  destruct (urljoin _ _) as [e | url]; [discriminate|].
  intros H. injection H as <-. intros [<- | []].
  apply andb_prop in E as [E1 E2]. apply Nat.leb_le in E1, E2. simpl. lia.
Qed.

Lemma links_of_page_range page_links links x :
  link_loop page_links = inr links -> In x links -> 1 <= fst x <= 25.
Proof.
  revert links. induction page_links as [|link later IH]; simpl; intros links.
  - intros H. injection H as <-. intros [].
  - destruct (link_of _ _ link) as [e | found] eqn:E; [discriminate|].
    destruct (link_loop later) as [e | rest]; [discriminate|].
    intros H. injection H as <-. intros Hx. apply in_app_or in Hx as [Hx | Hx].
    + exact (link_of_range _ _ _ E Hx).
    + exact (IH _ eq_refl Hx).
Qed.

Lemma construct_links_spec self numbers :
  (forall i, exists url, problem_url self i = Some url) ->
  exists links,
    construct_links self numbers = inr links
    /\ map fst links = numbers
    /\ Forall (fun x => problem_url self (fst x) = Some (snd x)) links.
Proof.
  intros Hurl. induction numbers as [|i later (links & E & Hfst & Hall)]; simpl.
  - exists []. repeat split. constructor.
  - destruct (Hurl i) as [url Hi]. rewrite Hi, E.
    exists ((i, url) :: links). simpl. rewrite Hfst. repeat split.
    constructor; [exact Hi | exact Hall].
Qed.

Lemma seq_sorted start len : StronglySorted le (seq start len).
Proof.
  revert start. induction len as [|len IH]; intros start; simpl; constructor.
  - apply IH.
  - apply Forall_forall. intros n Hn. apply in_seq in Hn. lia.
Qed.

Lemma distinct_numbers_distinct_links (links : list (nat * string)) :
  NoDup (map fst links) -> NoDup links.
Proof.
  induction links as [|x rest IH]; simpl; intros H; [constructor|].
  inversion H as [|n l Hnotin Hrest]; subst.
  constructor; [|apply IH, Hrest].
  intros Hin. apply Hnotin, in_map, Hin.
Qed.

(** The two outcomes of [get_problem_links]. *)
Lemma get_problem_links_outcomes ct y base self k :
  scraper_init ct y base = inr self ->
  (exists links,
      links_of self k = inr links
      /\ Forall (fun x => 1 <= fst x <= 25) links
      /\ StronglySorted le (map fst links)
      /\ NoDup links)
  \/ (exists url soup e,
         get_main_page_url self = Some url
         /\ fetch_page k url = Some soup
         /\ link_loop (find_all (named_having "a" "href") (root soup)) = inl e
         /\ links_of self k = inl e).
Proof.
  intros Hinit.
  destruct (scraper_urls_and_file _ _ _ _ Hinit) as (Hmain & Hurl & _).
  unfold get_problem_links. rewrite Hmain.
  destruct (fetch_page k _) as [soup|] eqn:Hfetch.
  2:{ left. exists []. repeat split; constructor. }
  destruct (link_loop _) as [e | found] eqn:Hloop.
  { right. eexists _, soup, e. repeat split; trivial. }
  left.
  destruct (sorted_by_number (set_order found)) as [|l ls] eqn:E.
  - destruct (construct_links_spec self (seq 1 25)) as (links & Hc & Hfst & _).
    { intros i. eexists. apply Hurl. }
    exists links. split; [exact Hc|]. split; [|split].
    + apply Forall_forall. intros x Hx.
      assert (Hn : In (fst x) (seq 1 25)) by (rewrite <- Hfst; apply in_map, Hx).
      apply in_seq in Hn. lia.
    + rewrite Hfst. apply seq_sorted.
    + apply distinct_numbers_distinct_links. rewrite Hfst. apply seq_NoDup.
  - exists (l :: ls). split; [reflexivity|]. rewrite <- E. split; [|split].
    + apply Forall_forall. intros x Hx.
      apply (Permutation_in _ (sorted_by_number_perm _)) in Hx.
      apply (proj1 (set_order_elements _ _)) in Hx.
      exact (links_of_page_range _ _ _ Hloop Hx).
    + apply sorted_by_number_sorted.
    + eapply Permutation_NoDup; [apply Permutation_sym, sorted_by_number_perm|].
      apply set_order_distinct.
Qed.

(** X4: for a scraper that was constructed, [get_problem_links] either
    returns links whose problem numbers lie between 1 and 25 and never
    decrease along the list, no link (number with URL) twice, or raises
    what the loop over the links of the fetched main page raises (the
    error of [int] on a number with too many digits, or of [urljoin]);
    it never fails on an unassigned variable.  This holds for the links
    read off the main page and for the constructed ones alike, and
    whatever order the set of links is iterated in. *)
Theorem problem_links_are_in_range_sorted_and_distinct ct y base self k :
  scraper_init ct y base = inr self ->
  (exists links,
      links_of self k = inr links
      /\ Forall (fun x => 1 <= fst x <= 25) links
      /\ StronglySorted le (map fst links)
      /\ NoDup links)
  \/ (exists url soup e,
         get_main_page_url self = Some url
         /\ fetch_page k url = Some soup
         /\ link_loop (find_all (named_having "a" "href") (root soup)) = inl e
         /\ links_of self k = inl e).
Proof. apply get_problem_links_outcomes. Qed.

Lemma set_order_nothing : set_order [] = [].
Proof.
  destruct (set_order []) as [|x rest] eqn:E; [reflexivity|].
  destruct (proj1 (set_order_elements [] x)). rewrite E. now left.
Qed.

(** X5: when the main page is fetched and the loop over its links raises
    nothing and keeps no link (none is a link to a problem numbered 1 to
    25), the scraper falls back on exactly 25 links, numbered 1, 2, ...,
    25 in this order, each with the URL the scraper constructs for that
    number. *)
Theorem page_without_problem_links_gives_25_constructed_links ct y base self k url soup :
  scraper_init ct y base = inr self ->
  get_main_page_url self = Some url ->
  fetch_page k url = Some soup ->
  link_loop (find_all (named_having "a" "href") (root soup)) = inr [] ->
  exists links,
    links_of self k = inr links
    /\ map fst links = seq 1 25
    /\ Forall (fun x => problem_url self (fst x) = Some (snd x)) links.
Proof.
  intros Hinit Hurl Hfetch Hnone.
  destruct (scraper_urls_and_file _ _ _ _ Hinit) as (_ & Hurls & _).
  unfold get_problem_links. rewrite Hurl, Hfetch, Hnone, set_order_nothing.
  simpl sorted_by_number. cbv iota. apply construct_links_spec.
  intros i. eexists. apply Hurls.
Qed.

End LinkFacts.

Lemma first_occurrences_distinct links : NoDup (first_occurrences links).
Proof. apply NoDup_nodup. Qed.

Lemma first_occurrences_elements links x :
  In x (first_occurrences links) <-> In x links.
Proof. apply nodup_In. Qed.

Lemma problem_links_are_in_range_sorted_and_distinct_witness :
  exists self,
    scraper_init "AMC8" 2024 ["data"] = inr self
    /\ ((exists links,
            get_problem_links 4300 join_links first_occurrences (always main_page) self 0
            = inr links
            /\ Forall (fun x => 1 <= fst x <= 25) links
            /\ StronglySorted le (map fst links)
            /\ NoDup links)
        \/ (exists url soup e,
               get_main_page_url self = Some url
               /\ always main_page 0 url = Some soup
               /\ links_of_page 4300 join_links
                    (find_all (named_having "a" "href") (root soup)) = inl e
               /\ get_problem_links 4300 join_links first_occurrences (always main_page) self 0
                  = inl e)).
Proof.
  eexists. split; [reflexivity|].
  apply (problem_links_are_in_range_sorted_and_distinct 4300 join_links first_occurrences
           (always main_page) first_occurrences_distinct first_occurrences_elements
           "AMC8" 2024 ["data"]).
  reflexivity.
Defined.

Lemma page_without_problem_links_gives_25_constructed_links_witness :
  exists self,
    scraper_init "AMC12A" 2021 ["data"] = inr self
    /\ exists links,
        get_problem_links 4300 join_links first_occurrences (always page_with_gap) self 0
        = inr links
        /\ map fst links = seq 1 25
        /\ Forall (fun x => problem_url self (fst x) = Some (snd x)) links.
Proof.
  eexists. split; [reflexivity|].
  apply (page_without_problem_links_gives_25_constructed_links 4300 join_links
           first_occurrences (always page_with_gap) first_occurrences_elements
           "AMC12A" 2021 ["data"] _ 0
           "https://artofproblemsolving.com/wiki/index.php/2021_AMC_12A" page_with_gap);
    reflexivity.
Defined.

(** ** [scrape_problem] and [scrape_all] *)

Lemma extract_problem_number download_image markup soup problem_num :
  number (extract_problem download_image markup soup problem_num) = problem_num.
Proof. unfold extract_problem. destruct (find_problem_heading soup); reflexivity. Qed.

Section RaisingFacts.

Variable int_max_str_digits : nat.
Variable download_image : string -> nat -> string -> option string.
Variable markup : node -> string.

Lemma names_next_returns m i b :
  names_next_or_raise int_max_str_digits m i = inr b -> names_next m i = b.
Proof.
  unfold names_next_or_raise, names_next, py_int. destruct m as [m|]; [|congruence].
  destruct (_ && _); [discriminate | congruence].
Qed.

Lemma solution_stops_returns current i max_solutions b :
  solution_stops_or_raise int_max_str_digits current i max_solutions = inr b ->
  solution_stops current i max_solutions = b.
Proof.
  unfold solution_stops_or_raise, solution_stops.
  destruct (String.eqb (name_of current) "h2"); [|congruence].
  destruct (find _ _) as [span|].
  - destruct (PyStr.startswith _ "Solution_"); [apply names_next_returns | congruence].
  - destruct (_ && _); [apply names_next_returns | congruence].
Qed.

Lemma solution_section_returns siblings problem_num i max_solutions :
  forall content,
    solution_section_or_raise int_max_str_digits download_image markup
      siblings problem_num i max_solutions = inr content ->
    solution_section download_image markup siblings problem_num i max_solutions = content.
Proof.
  induction siblings as [|current later IH]; simpl; intros content; [congruence|].
  destruct (solution_stops_or_raise _ _ _ _) as [e | b] eqn:E; [discriminate|].
  rewrite (solution_stops_returns _ _ _ _ E). destruct b; [congruence|].
  destruct (solution_section_or_raise _ _ _ later _ _ _) as [e | rest]; [discriminate|].
  rewrite (IH rest eq_refl). congruence.
Qed.

Lemma solutions_loop_returns soup problem_num max_solutions todo :
  forall i solutions result,
    solutions_loop_or_raise int_max_str_digits download_image markup
      soup problem_num max_solutions todo i solutions = inr result ->
    solutions_loop download_image markup soup problem_num max_solutions todo i solutions
    = result.
Proof.
  induction todo as [|todo IH]; intros i solutions result;
    cbn [solutions_loop_or_raise solutions_loop]; [congruence|].
  destruct (find _ _) as [span|]; [|congruence].
  destruct (solution_heading_of soup i span) as [heading|]; [|congruence].
  destruct (solution_section_or_raise _ _ _ _ _ _ _) as [e | content] eqn:E; [discriminate|].
  rewrite (solution_section_returns _ _ _ _ _ E). apply IH.
Qed.

(** When no [int] raises, the solutions are those of [extract_solutions]. *)
Lemma extract_solutions_returns soup problem_num max_solutions result :
  extract_solutions_or_raise int_max_str_digits download_image markup
    soup problem_num max_solutions = inr result ->
  extract_solutions download_image markup soup problem_num max_solutions = result.
Proof. apply solutions_loop_returns. Qed.

End RaisingFacts.

Section ScrapeFacts.

Variable int_max_str_digits : nat.
Variable urljoin : string -> string -> raised + string.
Variable set_order : list (nat * string) -> list (nat * string).
Variable fetch_page : nat -> string -> option node.
Variable download_image : string -> nat -> string -> option string.
Variable markup : node -> string.

Hypothesis set_order_distinct : forall links, NoDup (set_order links).
Hypothesis set_order_elements :
  forall links x, In x (set_order links) <-> In x links.

Abbreviation scrape := (scrape_links int_max_str_digits fetch_page download_image markup).
Abbreviation whole :=
  (scrape_all int_max_str_digits urljoin set_order fetch_page download_image markup).

(** The problems scraped are those of the links whose page is fetched, in
    the order of the links; each carries the year and the contest of the
    scraper. *)
Lemma scrape_links_returns self links :
  forall k problems,
    scrape self k links = inr problems ->
    map (fun r => number (problem r)) problems = map fst (answered fetch_page k links)
    /\ Forall (fun r => p_year r = year self
                        /\ p_contest_type r = contest_type self
                        /\ p_contest_name r = contest_name self) problems.
Proof.
  induction links as [|[n url] later IH]; intros k problems; simpl.
  - intros H. injection H as <-. split; constructor.
  - unfold scrape_problem. destruct (fetch_page k url) as [soup|].
    + destruct (extract_solutions_or_raise _ _ _ soup n 3) as [e | sols] eqn:E;
        [discriminate|].
      destruct (scrape self (S k) later) as [e | rest] eqn:Er; [discriminate|].
      intros H. injection H as <-. destruct (IH _ _ Er) as [Hn Hall].
      simpl. rewrite extract_problem_number, Hn. split; [reflexivity|].
      constructor; [|exact Hall]. simpl. repeat split.
    + destruct (scrape self (S k) later) as [e | rest] eqn:Er; [discriminate|].
      intros H. injection H as <-. exact (IH _ _ Er).
Qed.

Lemma answered_within k links x :
  In x (answered fetch_page k links) -> In x links.
Proof.
  revert k. induction links as [|[n url] later IH]; intros k; simpl; [trivial|].
  destruct (fetch_page k url); [intros [<- | H]; [now left | right; eauto] | eauto].
Qed.

Lemma answered_sorted k links :
  StronglySorted le (map fst links) ->
  StronglySorted le (map fst (answered fetch_page k links)).
Proof.
  revert k. induction links as [|[n url] later IH]; intros k; simpl; intros Hs;
    [constructor|].
  apply StronglySorted_inv in Hs as [Hlater Hn].
  destruct (fetch_page k url); [|apply IH, Hlater].
  simpl. constructor; [apply IH, Hlater|].
  apply Forall_forall. intros m Hm. apply in_map_iff in Hm as (x & <- & Hx).
  rewrite Forall_forall in Hn. apply Hn, in_map, (answered_within _ _ _ Hx).
Qed.

(** X6: for a scraper that was constructed, [scrape_all] raises what
    [get_problem_links] raises, or else what the scraping of a fetched
    problem page raises (the error of [int] in [extract_solutions]), and
    otherwise returns one problem for each link whose page is fetched, in
    the order of the links, and none for the links whose page is not:
    the numbers of the problems are the numbers of those links, they lie
    between 1 and 25 and never decrease along the list, and each problem
    carries the year, the contest type and the contest name of the
    scraper. *)
Theorem scrape_all_returns_numbered_problems_in_order ct y base self :
  scraper_init ct y base = inr self ->
  match get_problem_links int_max_str_digits urljoin set_order fetch_page self 0 with
  | inl e =>
      scrape_all int_max_str_digits urljoin set_order fetch_page download_image markup self
      = inl e
  | inr links =>
      match scrape_links int_max_str_digits fetch_page download_image markup self 1 links with
      | inl e =>
      scrape_all int_max_str_digits urljoin set_order fetch_page download_image markup self
      = inl e
      | inr problems =>
          scrape_all int_max_str_digits urljoin set_order fetch_page download_image markup
            self = inr problems
          /\ map (fun r => number (problem r)) problems
             = map fst (answered fetch_page 1 links)
          /\ Forall (fun r => 1 <= number (problem r) <= 25
                              /\ p_year r = y
                              /\ p_contest_type r = ct
                              /\ p_contest_name r = contest_name self) problems
          /\ StronglySorted le (map (fun r => number (problem r)) problems)
      end
  end.
Proof.
  intros Hinit.
  destruct (scraper_urls_and_file _ _ _ _ Hinit)
    as (_ & _ & _ & _ & Hfile).
  destruct (scraper_init_type _ _ _ _ Hinit) as (_ & Hct & Hy & _).
  unfold scrape_all.
  destruct (get_problem_links_outcomes
              int_max_str_digits urljoin set_order fetch_page
              set_order_distinct set_order_elements _ _ _ _ 0 Hinit)
    as [(links & Hlinks & Hrange & Hsorted & _) | (url & soup & e & _ & _ & _ & Hlinks)];
    rewrite Hlinks; [|reflexivity].
  destruct (scrape self 1 links) as [e | problems] eqn:E; [reflexivity|].
  rewrite Hfile. destruct (scrape_links_returns _ _ _ _ E) as [Hn Hall].
  split; [reflexivity|]. split; [exact Hn|]. split.
  - apply Forall_forall. intros r Hr.
    rewrite Forall_forall in Hall. destruct (Hall r Hr) as (H1 & H2 & H3).
    rewrite H1, H2, Hy, Hct. repeat split; trivial;
      assert (Hin : In (number (problem r)) (map fst (answered fetch_page 1 links)))
        by (rewrite <- Hn; apply (in_map (fun r => number (problem r))), Hr);
      apply in_map_iff in Hin as (x & <- & Hx); apply answered_within in Hx;
      rewrite Forall_forall in Hrange; apply (Hrange x Hx).
  - rewrite Hn. apply answered_sorted, Hsorted.
Qed.

(** X7: when the main page cannot be fetched, [scrape_all] of a scraper
    that was constructed returns the empty list: it neither raises nor
    tries the 25 constructed URLs. *)
Theorem scrape_all_without_main_page_is_empty ct y base self url :
  scraper_init ct y base = inr self ->
  get_main_page_url self = Some url ->
  fetch_page 0 url = None ->
  scrape_all int_max_str_digits urljoin set_order fetch_page download_image markup self
  = inr [].
Proof.
  intros Hinit Hurl Hfetch.
  destruct (scraper_urls_and_file _ _ _ _ Hinit)
    as (_ & _ & _ & _ & Hfile).
  unfold scrape_all, get_problem_links. rewrite Hurl, Hfetch. simpl. rewrite Hfile.
  reflexivity.
Qed.

End ScrapeFacts.

Lemma scrape_all_returns_numbered_problems_in_order_witness :
  exists self problems,
    scraper_init "AMC8" 2024 ["data"] = inr self
    /\ scrape_all 4300 join_links first_occurrences (always main_page) saved open_tag self
       = inr problems
    /\ map (fun r => number (problem r)) problems = [1; 2].
Proof.
  eexists. eexists. split; [reflexivity|].
  pose proof (scrape_all_returns_numbered_problems_in_order 4300 join_links
                first_occurrences (always main_page) saved open_tag
                first_occurrences_distinct first_occurrences_elements
                "AMC8" 2024 ["data"] _ eq_refl) as H.
  vm_compute get_problem_links in H.
  cbv beta iota in H.
  match type of H with
  | match ?s with inl _ => _ | inr _ => _ end =>
      let v := eval vm_compute in s in change s with v in H
  end.
  cbv beta iota in H. destruct H as (Hall & Hn & _).
  split; [exact Hall | exact Hn].
Defined.

Lemma scrape_all_without_main_page_is_empty_witness :
  exists self,
    scraper_init "AMC10A" 2020 ["data"] = inr self
    /\ scrape_all 4300 join_links first_occurrences (problems_only page_with_gap)
         saved open_tag self
       = inr [].
Proof.
  eexists. split; [reflexivity|].
  apply (scrape_all_without_main_page_is_empty 4300 join_links first_occurrences
           (problems_only page_with_gap) saved open_tag "AMC10A" 2020 ["data"] _
           "https://artofproblemsolving.com/wiki/index.php/2020_AMC_10A");
    reflexivity.
Defined.

(** ** More on the tree walker *)

Section StripFacts.

Lemma truthy_not_empty s : PyStr.truthy s = true <-> s <> EmptyString.
Proof. destruct s; simpl; split; congruence. Qed.

Lemma lstrip_starts_clean s : starts_clean (PyStr.lstrip s).
Proof.
  induction s as [|c s IH]; simpl; [exact I|].
  destruct (PyStr.is_space c) eqn:E; [exact IH | exact E].
Qed.

Lemma lstrip_clean s : starts_clean s -> PyStr.lstrip s = s.
Proof. destruct s as [|c s]; simpl; [reflexivity|]. now intros ->. Qed.

Lemma rstrip_starts_clean s : starts_clean s -> starts_clean (PyStr.rstrip s).
Proof. destruct s as [|c s]; simpl; [trivial|]. intros E. rewrite E. exact E. Qed.

Lemma rstrip_idempotent s : PyStr.rstrip (PyStr.rstrip s) = PyStr.rstrip s.
Proof.
  induction s as [|c s IH]; simpl; [reflexivity|].
  destruct (PyStr.is_space c && negb (PyStr.truthy (PyStr.rstrip s))) eqn:E;
    [reflexivity|].
  simpl. rewrite IH, E. reflexivity.
Qed.

(** Stripping a stripped string changes nothing. *)
Lemma strip_idempotent s : PyStr.strip (PyStr.strip s) = PyStr.strip s.
Proof.
  unfold PyStr.strip.
  rewrite (lstrip_clean _ (rstrip_starts_clean _ (lstrip_starts_clean s))).
  apply rstrip_idempotent.
Qed.

End StripFacts.

Section WalkerItems.

Variable download_image : string -> nat -> string -> option string.
Variable markup : node -> string.

Abbreviation walk := (extract_content_with_images download_image markup).
Abbreviation walk_child := (child_content download_image markup).

(** A property of the items of the three branches that append an item is a
    property of every item of a walk. *)
Lemma walk_forall (P : ContentItem -> Prop) problem_num img_type :
  (forall s, Forall P (text_item s)) ->
  (forall a, Forall P (image_item download_image a problem_num img_type)) ->
  (forall name a kids,
      PyStr.mem name ("img" :: containers) = false ->
      PyStr.truthy (get_text_strip (Tag name a kids)) = true ->
      P (RawFragment (get_text_strip (Tag name a kids)) (markup (Tag name a kids)) name)) ->
  forall element, Forall P (walk element problem_num img_type).
Proof.
  intros Htext Himage Hraw.
  induction element
    as [s | nm a children IH | | c rest IHc IHrest]
    using node_rect'
    with (Q := fun l => Forall P (flat_map (fun child => walk_child child problem_num img_type) l)).
  - apply Htext.
  - rewrite walk_tag. exact IH.
  - constructor.
  - cbn [flat_map]. apply Forall_app. split; [|exact IHrest].
    destruct c as [s | name a kids]; unfold child_content.
    + apply Htext.
    + destruct (String.eqb name "img") eqn:Eimg; [apply Himage|].
      destruct (String.eqb name "a" && is_found (find_img (Tag name a kids))).
      { destruct (find_img (Tag name a kids)); [apply Himage | constructor]. }
      destruct (PyStr.mem name containers) eqn:Hc; [exact IHc|].
      rewrite (br_is_container _ Hc).
      destruct (PyStr.truthy _) eqn:Et; constructor; [|constructor].
      apply Hraw; [|exact Et]. simpl. rewrite Eimg. exact Hc.
Qed.

(** X8: the walk never yields an empty text item, and the text of every
    text item is stripped: stripping it again changes nothing. *)
Theorem walk_text_items_are_stripped_and_not_empty :
  forall element problem_num img_type c,
    In (Text c) (walk element problem_num img_type) ->
    c <> EmptyString /\ PyStr.strip c = c.
Proof.
  intros element pn it c Hin.
  assert (H : Forall (fun item => match item with
                                  | Text c => c <> EmptyString /\ PyStr.strip c = c
                                  | _ => True
                                  end) (walk element pn it)).
  { apply walk_forall.
    - intros s. unfold text_item. destruct (PyStr.truthy _) eqn:E; repeat constructor.
      + apply truthy_not_empty, E.
      + apply strip_idempotent.
    - intros a. unfold image_item.
      destruct (py_or _ _) as [src|]; [|constructor].
      destruct (PyStr.truthy src); [|constructor].
      destruct (download_image src pn it) as [lp|]; [|constructor].
      destruct (PyStr.truthy lp); repeat constructor.
    - intros; exact I. }
  rewrite Forall_forall in H. exact (H _ Hin).
Qed.



(** X10: every raw fragment of a walk has a visible text that is not empty,
    and its tag is neither [img] nor one of the containers [p], [div],
    [span], [br], [pre], [code]. *)
Theorem walk_raw_fragments_have_text :
  forall element problem_num img_type c html tag,
    In (RawFragment c html tag) (walk element problem_num img_type) ->
    c <> EmptyString /\ ~ In tag ("img" :: containers).
Proof.
  intros element pn it c html tag Hin.
  assert (H : Forall (fun item => match item with
                                  | RawFragment c _ tag =>
                                      c <> EmptyString /\ ~ In tag ("img" :: containers)
                                  | _ => True
                                  end) (walk element pn it)).
  { apply walk_forall.
    - intros s. unfold text_item. destruct (PyStr.truthy _); repeat constructor.
    - intros a. unfold image_item.
      destruct (py_or _ _) as [src'|]; [|constructor].
      destruct (PyStr.truthy src'); [|constructor].
      destruct (download_image src' pn it) as [lp'|]; [|constructor].
      destruct (PyStr.truthy lp'); repeat constructor.
    - intros name a kids Hmem Ht. split; [apply truthy_not_empty, Ht|].
      intros Hname. unfold PyStr.mem in Hmem.
      assert (E : existsb (String.eqb name) ("img" :: containers) = true).
      { apply existsb_exists. exists name. split; [exact Hname | apply String.eqb_refl]. }
      congruence. }
  rewrite Forall_forall in H. exact (H _ Hin).
Qed.

(** X12: the containers are transparent.  A [p], [div], [span], [pre] or
    [code] child (or a [br]) contributes what its own children contribute:
    the walk of the parent is the walk of the parent with the child
    replaced by the children of the child. *)
Theorem walk_flattens_containers :
  forall nm a before name a' kids after problem_num img_type,
    In name containers ->
    walk (Tag nm a (before ++ Tag name a' kids :: after)) problem_num img_type
    = walk (Tag nm a (before ++ kids ++ after)) problem_num img_type.
Proof.
  intros nm a before name a' kids after pn it Hin.
  rewrite !walk_tag_app, walk_tag_cons. f_equal. f_equal.
  unfold child_content.
  assert (Hc : PyStr.mem name containers = true).
  { apply existsb_exists. exists name. split; [exact Hin | apply String.eqb_refl]. }
  unfold containers in Hin. simpl in Hin.
  destruct Hin as [<- | [<- | [<- | [<- | [<- | [<- | []]]]]]]; reflexivity.
Qed.

End WalkerItems.

Section WalkerWithoutImages.

Variable download_image : string -> nat -> string -> option string.
Variable markup : node -> string.

Lemma text_item_without_images s : without_images (text_item s) = text_item s.
Proof. unfold text_item. destruct (PyStr.truthy _); reflexivity. Qed.

Lemma image_item_without_images a problem_num img_type :
  without_images (image_item download_image a problem_num img_type) = []
  /\ image_item never_downloads a problem_num img_type = [].
Proof.
  unfold image_item, never_downloads.
  destruct (py_or _ _) as [src|]; [|split; reflexivity].
  destruct (PyStr.truthy src); [|split; reflexivity].
  destruct (download_image src problem_num img_type) as [lp|]; [|split; reflexivity].
  destruct (PyStr.truthy lp); split; reflexivity.
Qed.

(** X11: a failed download only removes the image.  The walk with an image
    resolver that always fails is the walk with any resolver with the image
    items taken out: the other items are the same, in the same order. *)
Theorem walk_without_downloads_keeps_the_rest :
  forall element problem_num img_type,
    extract_content_with_images never_downloads markup element problem_num img_type
    = without_images
        (extract_content_with_images download_image markup element problem_num img_type).
Proof.
  intros element pn it.
  induction element
    as [s | nm a children IH | | c rest IHc IHrest]
    using node_rect'
    with (Q := fun l =>
                 flat_map (fun child => child_content never_downloads markup child pn it) l
                 = without_images
                     (flat_map (fun child => child_content download_image markup child pn it) l)).
  - simpl. symmetry. apply text_item_without_images.
  - rewrite !walk_tag. exact IH.
  - reflexivity.
  - cbn [flat_map]. unfold without_images in *. rewrite filter_app, <- IHrest. f_equal.
    destruct c as [s | name a kids]; unfold child_content.
    + symmetry. apply text_item_without_images.
    + destruct (String.eqb name "img").
      { destruct (image_item_without_images (attrs_of (Tag name a kids)) pn it) as [E1 E2].
        unfold without_images in E1. rewrite E1, E2. reflexivity. }
      destruct (String.eqb name "a" && is_found (find_img (Tag name a kids))).
      { destruct (find_img (Tag name a kids)) as [img|]; [|reflexivity].
        destruct (image_item_without_images (attrs_of (focus img)) pn it) as [E1 E2].
        unfold without_images in E1. rewrite E1, E2. reflexivity. }
      destruct (PyStr.mem name containers); [exact IHc|].
      destruct (String.eqb name "br"); [reflexivity|].
      destruct (PyStr.truthy _); reflexivity.
Qed.

End WalkerWithoutImages.

Lemma walk_text_items_are_stripped_and_not_empty_witness :
  In (Text "so") (extract_content_with_images saved open_tag
                    (Tag "p" [] [NavigableString "  so  "; Tag "br" [] []]) 1 "problem")
  /\ "so" <> EmptyString /\ PyStr.strip "so" = "so".
Proof.
  split; [left; reflexivity|].
  apply (walk_text_items_are_stripped_and_not_empty saved open_tag
           (Tag "p" [] [NavigableString "  so  "; Tag "br" [] []]) 1 "problem").
  left. reflexivity.
Defined.


Lemma walk_raw_fragments_have_text_witness :
  In (RawFragment "bold" "<b>" "b")
     (extract_content_with_images saved open_tag
        (Tag "p" [] [Tag "b" [] [NavigableString " bold "]]) 1 "problem")
  /\ "bold" <> EmptyString /\ ~ In "b" ("img" :: containers).
Proof.
  split; [left; reflexivity|].
  apply (walk_raw_fragments_have_text saved open_tag
           (Tag "p" [] [Tag "b" [] [NavigableString " bold "]]) 1 "problem" "bold" "<b>" "b").
  left. reflexivity.
Defined.

Lemma walk_flattens_containers_witness :
  In "span" containers
  /\ extract_content_with_images saved open_tag
       (Tag "p" [] ([NavigableString "a"]
                    ++ Tag "span" [] [NavigableString "b"; Tag "i" [] [NavigableString "c"]]
                    :: [NavigableString "d"])) 1 "problem"
     = extract_content_with_images saved open_tag
         (Tag "p" [] ([NavigableString "a"]
                      ++ [NavigableString "b"; Tag "i" [] [NavigableString "c"]]
                      ++ [NavigableString "d"])) 1 "problem".
Proof.
  split; [simpl; tauto|].
  apply (walk_flattens_containers saved open_tag). simpl. tauto.
Defined.

(** ** The matcher finds matches only *)

Section MatcherFacts.

Lemma all_in_app cs run1 run2 :
  all_in cs run1 = true -> all_in cs run2 = true -> all_in cs (run1 ++ run2) = true.
Proof.
  induction run1 as [|c run1 IH]; simpl; [trivial|].
  intros H1 H2. apply andb_prop in H1 as [Hc H1]. rewrite Hc. simpl. now apply IH.
Qed.

Lemma append_assoc_string (a b c : string) : ((a ++ b) ++ c = a ++ (b ++ c))%string.
Proof. induction a as [|x a IH]; simpl; [reflexivity | now rewrite IH]. Qed.

Lemma length_append_string (a b : string) :
  String.length (a ++ b) = String.length a + String.length b.
Proof. induction a as [|x a IH]; simpl; [reflexivity | now rewrite IH]. Qed.

Lemma rep_exact_sound (R : Type) cs n s (k : string -> option R) x :
  Re.rep_exact cs n s k = Some x ->
  exists run s', s = (run ++ s')%string /\ all_in cs run = true
                 /\ String.length run = n /\ k s' = Some x.
Proof.
  revert s. induction n as [|n IH]; intros s; simpl.
  - intros H. exists EmptyString, s. auto.
  - destruct s as [|c s]; [discriminate|].
    destruct (cs c) eqn:Ec; [|discriminate].
    intros H. destruct (IH _ H) as (run & s' & -> & Hall & Hlen & Hk).
    exists (String c run), s'. simpl. rewrite Ec, Hall, Hlen. auto.
Qed.

Lemma rep_greedy_sound (R : Type) cs s (k : string -> option R) x :
  forall hi,
    Re.rep_greedy cs hi s k = Some x ->
    exists run s', s = (run ++ s')%string /\ all_in cs run = true /\ k s' = Some x.
Proof.
  induction s as [|c s IH]; intros hi; simpl.
  - intros H. exists EmptyString, EmptyString. auto.
  - destruct (cs c && Re.allowed hi) eqn:E.
    + destruct (Re.rep_greedy cs (Re.less hi) s k) as [y|] eqn:Eg.
      * intros H. injection H as ->.
        destruct (IH _ Eg) as (run & s' & -> & Hall & Hk).
        apply andb_prop in E as [Ec _].
        exists (String c run), s'. simpl. rewrite Ec, Hall. auto.
      * intros H. exists EmptyString, (String c s). auto.
    + intros H. exists EmptyString, (String c s). auto.
Qed.

Lemma rep_lazy_sound (R : Type) cs s (k : string -> option R) x :
  forall hi,
    Re.rep_lazy cs hi s k = Some x ->
    exists run s', s = (run ++ s')%string /\ all_in cs run = true /\ k s' = Some x.
Proof.
  induction s as [|c s IH]; intros hi; simpl.
  - destruct (k EmptyString) as [y|] eqn:Ek; [|discriminate].
    intros H. injection H as ->. exists EmptyString, EmptyString. auto.
  - destruct (k (String c s)) as [y|] eqn:Ek.
    + intros H. injection H as ->. exists EmptyString, (String c s). auto.
    + destruct (cs c && Re.allowed hi) eqn:E; [|discriminate].
      intros H. destruct (IH _ H) as (run & s' & -> & Hall & Hk).
      apply andb_prop in E as [Ec _].
      exists (String c run), s'. simpl. rewrite Ec, Hall. auto.
Qed.

Lemma rep_sound (R : Type) cs lo hi greedy s (k : string -> option R) x :
  Re.rep cs lo hi greedy s k = Some x ->
  exists run s', s = (run ++ s')%string /\ all_in cs run = true
                 /\ lo <= String.length run /\ k s' = Some x.
Proof.
  unfold Re.rep. intros H.
  apply rep_exact_sound in H as (run1 & s1 & -> & Hall1 & Hlen & H).
  assert (Hmore : exists run s', s1 = (run ++ s')%string /\ all_in cs run = true
                                 /\ k s' = Some x).
  { destruct greedy; [eapply rep_greedy_sound | eapply rep_lazy_sound]; exact H. }
  destruct Hmore as (run2 & s' & -> & Hall2 & Hk).
  exists (run1 ++ run2)%string, s'. rewrite append_assoc_string, length_append_string.
  repeat split; trivial; [now apply all_in_app | lia].
Qed.

(** The matcher is sound.  Whatever it hands to its continuation is a
    match of the pattern: when [rmatch] succeeds, the pattern matches the
    beginning of the text up to some point, and the continuation succeeded
    from that point with the groups of that match. *)
Theorem rmatch_finds_matches_only :
  forall r (R : Type) s caps (k : string -> Re.captures -> option R) x,
    Re.rmatch r s caps k = Some x ->
    exists s' caps', Matches r s caps s' caps' /\ k s' caps' = Some x.
Proof.
  induction r as [| c | cs | cs lo hi greedy | r1 IH1 r2 IH2 | r1 IH1 r2 IH2
                  | i r IH | r IH |]; intros R s caps k x; simpl.
  - intros H. exists s, caps. split; [constructor | exact H].
  - destruct s as [|c' s]; [discriminate|].
    destruct (Ascii.eqb_spec c c') as [<- |]; [|discriminate].
    intros H. exists s, caps. split; [constructor | exact H].
  - destruct s as [|c' s]; [discriminate|].
    destruct (cs c') eqn:E; [|discriminate].
    intros H. exists s, caps. split; [now constructor | exact H].
  - intros H. apply rep_sound in H as (run & s' & -> & Hall & Hlen & Hk).
    exists s', caps. split; [now constructor | exact Hk].
  - intros H. apply IH1 in H as (s1 & caps1 & M1 & H).
    apply IH2 in H as (s2 & caps2 & M2 & H).
    exists s2, caps2. split; [econstructor; eassumption | exact H].
  - destruct (Re.rmatch r1 s caps k) as [y|] eqn:E.
    + intros H. injection H as ->. apply IH1 in E as (s' & caps' & M & H).
      exists s', caps'. split; [now apply M_Alt_left | exact H].
    + intros H. apply IH2 in H as (s' & caps' & M & H).
      exists s', caps'. split; [now apply M_Alt_right | exact H].
  - intros H. apply IH in H as (s' & caps' & M & H).
    exists s', ((i, Re.consumed s s') :: caps'). split; [now constructor | exact H].
  - destruct (Re.rmatch r s caps (fun _ caps' => Some caps')) as [caps1|] eqn:E;
      [|discriminate].
    intros H. apply IH in E as (s' & caps' & M & E). injection E as ->.
    exists s, caps1. split; [econstructor; exact M | exact H].
  - destruct (Re.at_end s) eqn:E; [|discriminate].
    intros H. exists s, caps. split; [now constructor | exact H].
Qed.

Lemma match_at_sound r pos s m :
  Re.match_at r pos s = Some m ->
  exists s' caps, Matches r s [] s' caps /\ Re.m_caps m = caps
                  /\ Re.m_text m = Re.consumed s s'.
Proof.
  unfold Re.match_at. intros H.
  apply rmatch_finds_matches_only in H as (s' & caps & M & H).
  injection H as <-. exists s', caps. auto.
Qed.

Lemma scan_sound r m s :
  forall pos skip,
    In (inl m) (Re.scan r pos s skip) ->
    exists pos' s0, Re.match_at r pos' s0 = Some m.
Proof.
  induction s as [|c s IH]; intros pos skip; destruct skip as [|n]; simpl;
    try (intros []; fail).
  - destruct (Re.match_at r pos EmptyString) as [m0|] eqn:E; [|intros []].
    intros [H | []]. injection H as ->. eauto.
  - destruct (Re.match_at r pos (String c s)) as [m0|] eqn:E.
    + intros [H | H]; [injection H as ->; eauto|].
      destruct (String.length (Re.m_text m0)).
      * destruct H as [H | H]; [discriminate | eauto].
      * eauto.
    + intros [H | H]; [discriminate | eauto].
  - eauto.
Qed.

Lemma findall2_sound r s g1 g2 :
  In (g1, g2) (Re.findall2 r s) ->
  exists s0 s' caps,
    Matches r s0 [] s' caps /\ g1 = Re.group caps 1 /\ g2 = Re.group caps 2.
Proof.
  unfold Re.findall2, Re.finditer. rewrite in_map_iff.
  intros (m & E & Hm). injection E as <- <-.
  apply in_flat_map in Hm as (x & Hx & Hm).
  destruct x as [m0 | c]; [|destruct Hm].
  destruct Hm as [<- | []].
  apply scan_sound in Hx as (pos' & s0 & Hx).
  apply match_at_sound in Hx as (s' & caps & M & <- & _).
  exists s0, s', (Re.m_caps m0). auto.
Qed.

End MatcherFacts.

(** ** More on the answer choices *)

Section ChoiceItems.

Lemma consumed_one c s : Re.consumed (String c s) s = String c EmptyString.
Proof.
  unfold Re.consumed. simpl String.length.
  replace (S (String.length s) - String.length s) with 1 by lia.
  simpl. destruct s; reflexivity.
Qed.

(** Inversion of a match along the pattern. *)
Ltac invert_matches :=
  repeat match goal with
         | H : Matches Re.Eps _ _ _ _ |- _ => inversion H; subst; clear H
         | H : Matches Re.Eos _ _ _ _ |- _ => inversion H; subst; clear H
         | H : Matches (Re.Chr _) _ _ _ _ |- _ => inversion H; subst; clear H
         | H : Matches (Re.Cls _) _ _ _ _ |- _ => inversion H; subst; clear H
         | H : Matches (Re.Rep _ _ _ _) _ _ _ _ |- _ => inversion H; subst; clear H
         | H : Matches (Re.Cat _ _) _ _ _ _ |- _ => inversion H; subst; clear H
         | H : Matches (Re.Alt _ _) _ _ _ _ |- _ => inversion H; subst; clear H
         | H : Matches (Re.Grp _ _) _ _ _ _ |- _ => inversion H; subst; clear H
         | H : Matches (Re.Ahead _) _ _ _ _ |- _ => inversion H; subst; clear H
         end.

(** In a match of one of the three text patterns group 1 is one character
    between A and E. *)
Lemma answer_pattern_letter pattern s s' caps :
  In pattern answer_patterns ->
  Matches pattern s [] s' caps ->
  exists c, Re.range "A" "E" c = true /\ Re.group caps 1 = String c EmptyString.
Proof.
  intros [<- | [<- | [<- | []]]] M;
    cbv [answer_pattern_1 answer_pattern_2 answer_pattern_3 choice_end
         Re.seq Re.lit Re.star Re.plus_lazy] in M;
    invert_matches;
    (eexists; split; [eassumption | simpl; apply consumed_one]).
Qed.

Lemma range_A_E c : Re.range "A" "E" c = true -> In (String c EmptyString) letters.
Proof.
  unfold Re.range. intros H. apply andb_prop in H as [H1 H2].
  apply Nat.leb_le in H1, H2.
  change (nat_of_ascii "A") with 65 in H1. change (nat_of_ascii "E") with 69 in H2.
  rewrite <- (ascii_nat_embedding c).
  assert (Hn : nat_of_ascii c = 65 \/ nat_of_ascii c = 66 \/ nat_of_ascii c = 67
               \/ nat_of_ascii c = 68 \/ nat_of_ascii c = 69) by lia.
  unfold letters.
  destruct Hn as [-> | [-> | [-> | [-> | ->]]]]; simpl; tauto.
Qed.

Lemma text_choice_sound m c :
  In c (text_choice m) ->
  letter c = fst m /\ text c <> EmptyString /\ PyStr.strip (text c) = text c.
Proof.
  unfold text_choice. destruct (_ && _) eqn:E; [|intros []].
  intros [<- | []]. cbn [letter text]. apply andb_prop in E as [E _].
  rewrite !strip_idempotent. split; [reflexivity|]. split.
  - apply truthy_not_empty, E.
  - reflexivity.
Qed.

Lemma text_cascade_sound patterns txt c :
  (forall p, In p patterns -> In p answer_patterns) ->
  In c (fst (text_cascade patterns txt [])) ->
  In (letter c) letters /\ text c <> EmptyString /\ PyStr.strip (text c) = text c.
Proof.
  induction patterns as [|pattern later IH]; simpl; intros Hsub; [intros []|].
  destruct (Re.findall2 pattern txt) as [|m ms] eqn:E.
  - apply IH. intros p Hp. apply Hsub. now right.
  - cbn [fst app]. intros Hin.
    change (text_choice m ++ flat_map text_choice ms)
      with (flat_map text_choice (m :: ms)) in Hin.
    apply in_flat_map in Hin as (m' & Hm' & Hc). rewrite <- E in Hm'.
    destruct (text_choice_sound _ _ Hc) as (Hl & Ht & Hs).
    split; [|auto]. rewrite Hl. destruct m' as [g1 g2].
    apply findall2_sound in Hm' as (s0 & s' & caps & M & -> & _).
    destruct (answer_pattern_letter pattern s0 s' caps (Hsub _ (or_introl eq_refl)) M)
      as (a & Ha & ->).
    apply range_A_E, Ha.
Qed.

Lemma alt_choice_sound alt_text l c :
  In c (alt_choice alt_text l) ->
  letter c = l /\ text c <> EmptyString /\ PyStr.strip (text c) = text c.
Proof.
  unfold alt_choice. destruct (Re.search _ _) as [m|]; [|intros []].
  destruct (PyStr.truthy _) eqn:E; [|intros []].
  intros [<- | []]. simpl. split; [reflexivity|]. split; [now apply truthy_not_empty|].
  unfold clean_alt. apply strip_idempotent.
Qed.

(** Started on an empty list, the image scan holds choices of one alt text. *)
Lemma alt_scan_choices items c :
  In c (alt_scan items []) -> exists alt_text, In c (alt_choices alt_text).
Proof.
  destruct (alt_scan_from_nothing items) as [E | [alt_text E]]; rewrite E.
  - intros [].
  - eauto.
Qed.

Lemma extract_answer_choices_sound content c :
  In c (extract_answer_choices content) ->
  In (letter c) letters /\ text c <> EmptyString /\ PyStr.strip (text c) = text c.
Proof.
  destruct (found_choices content) eqn:F.
  - rewrite (extract_answer_choices_found _ F).
    apply text_cascade_sound. auto.
  - rewrite (extract_answer_choices_not_found _ F). intros Hin.
    apply alt_scan_choices in Hin as (alt_text & Hin).
    unfold alt_choices in Hin. apply in_flat_map in Hin as (l & Hl & Hc).
    destruct (alt_choice_sound _ _ _ Hc) as (-> & Ht & Hs). auto.
Qed.

Lemma alt_choices_letters alt_text :
  map letter (alt_choices alt_text)
  = filter (fun l => match alt_choice alt_text l with [] => false | _ => true end) letters.
Proof.
  unfold alt_choices. induction letters as [|l ls IH]; simpl; [reflexivity|].
  rewrite map_app, IH.
  destruct (alt_choice_cases alt_text l) as [E | [t E]]; rewrite E; reflexivity.
Qed.

End ChoiceItems.

(** X13: every answer choice of a page, from the text patterns or from an
    alt text, has one of the letters A, B, C, D, E, and a text that is not
    empty and is stripped. *)
Theorem answer_choices_have_a_letter_and_a_text :
  forall download_image markup soup problem_num c,
    In c (answer_choices (extract_problem download_image markup soup problem_num)) ->
    In (letter c) letters
    /\ text c <> EmptyString
    /\ PyStr.strip (text c) = text c.
Proof.
  intros dl mk soup pn c. rewrite extract_problem_choices.
  apply extract_answer_choices_sound.
Qed.

Lemma answer_choices_have_a_letter_and_a_text_witness :
  In (mkChoice "B" "4" (Some "image_alt"))
     (answer_choices (extract_problem saved open_tag page_with_image_choices 3))
  /\ In "B" letters /\ "4" <> EmptyString /\ PyStr.strip "4" = "4".
Proof.
  split; [vm_compute; tauto|].
  apply (answer_choices_have_a_letter_and_a_text saved open_tag page_with_image_choices 3
           (mkChoice "B" "4" (Some "image_alt"))).
  vm_compute. tauto.
Defined.

(** X14: when no text pattern matched, the answer choices of a page are in
    the order of the letters: their letters are A, B, C, D, E with some
    letters left out, so there are at most five of them. *)
Theorem image_alt_choices_are_in_letter_order :
  forall download_image markup soup problem_num,
    found_choices (content (extract_problem download_image markup soup problem_num)) = false ->
    let choices := answer_choices (extract_problem download_image markup soup problem_num) in
    (exists kept, map letter choices = filter kept letters)
    /\ List.length choices <= 5.
Proof.
  intros dl mk soup pn F choices.
  assert (H : exists kept, map letter choices = filter kept letters).
  { subst choices. rewrite extract_problem_choices, (extract_answer_choices_not_found _ F).
    destruct (alt_scan_from_nothing (content (extract_problem dl mk soup pn)))
      as [E | [alt_text E]]; rewrite E.
    - exists (fun _ => false). reflexivity.
    - eexists. apply alt_choices_letters. }
  split; [exact H|]. destruct H as [kept H].
  rewrite <- (length_map letter), H.
  etransitivity; [apply filter_length_le | reflexivity].
Qed.

Lemma image_alt_choices_are_in_letter_order_witness :
  found_choices (content (extract_problem saved open_tag page_with_image_choices 3)) = false
  /\ (exists kept,
         map letter (answer_choices (extract_problem saved open_tag page_with_image_choices 3))
         = filter kept letters)
  /\ List.length (answer_choices (extract_problem saved open_tag page_with_image_choices 3)) <= 5.
Proof.
  split; [vm_compute; reflexivity|].
  apply (image_alt_choices_are_in_letter_order saved open_tag page_with_image_choices 3).
  vm_compute. reflexivity.
Defined.

(** ** Tests that never decide *)

Section ContainsFacts.

Lemma startswith_prefix p rest : PyStr.startswith (p ++ rest) p = true.
Proof.
  induction p as [|c p IH]; simpl; [destruct rest; reflexivity|].
  rewrite Ascii.eqb_refl. exact IH.
Qed.

Lemma startswith_inv s p :
  PyStr.startswith s p = true -> exists rest, s = (p ++ rest)%string.
Proof.
  revert s. induction p as [|c p IH]; intros s H.
  - exists s. reflexivity.
  - destruct s as [|c' s]; [discriminate H|]. simpl in H.
    apply andb_prop in H as [Hc Hs]. apply Ascii.eqb_eq in Hc as <-.
    destruct (IH _ Hs) as [rest ->]. exists rest. reflexivity.
Qed.

Lemma contains_unfold needle hay :
  PyStr.contains needle hay
  = PyStr.startswith hay needle
    || match hay with
       | EmptyString => false
       | String _ hay' => PyStr.contains needle hay'
       end.
Proof. destruct hay; reflexivity. Qed.

Lemma contains_intro needle pre post :
  PyStr.contains needle (pre ++ needle ++ post) = true.
Proof.
  induction pre as [|c pre IH].
  - simpl append. rewrite contains_unfold, startswith_prefix. reflexivity.
  - simpl. rewrite IH. apply orb_true_r.
Qed.

Lemma contains_inv needle hay :
  PyStr.contains needle hay = true ->
  exists pre post, hay = (pre ++ needle ++ post)%string.
Proof.
  induction hay as [|c hay IH]; rewrite contains_unfold; intros H.
  - rewrite orb_false_r in H. apply startswith_inv in H as [rest H].
    exists EmptyString, rest. exact H.
  - apply orb_prop in H as [H | H].
    + apply startswith_inv in H as [rest H]. exists EmptyString, rest. exact H.
    + destruct (IH H) as (pre & post & ->). exists (String c pre), post. reflexivity.
Qed.

(** A text that contains a string contains every end of that string. *)
Lemma contains_end front back hay :
  PyStr.contains (front ++ back) hay = true -> PyStr.contains back hay = true.
Proof.
  intros H. apply contains_inv in H as (pre & post & ->).
  rewrite append_assoc_string, <- (append_assoc_string pre front).
  apply contains_intro.
Qed.

End ContainsFacts.

(** X15: the marker of an alt text is the string [textbf{(A)}].  The test
    for [\textbf{(A)}] with the backslash never decides: an alt text has
    the marker exactly when it contains [textbf{(A)}]. *)
Theorem has_marker_is_one_test :
  forall alt_text, has_marker alt_text = PyStr.contains "textbf{(A)}" alt_text.
Proof.
  intros alt_text. unfold has_marker.
  destruct (PyStr.contains "\textbf{(A)}" alt_text) eqn:E; [|reflexivity].
  symmetry. exact (contains_end "\" "textbf{(A)}" alt_text E).
Qed.

(** The test for "video solution" never decides. *)
Lemma heading_stops_is_two_tests :
  forall current,
    heading_stops current
    = named ["h2"; "h3"] current
      && (PyStr.contains "solution" (PyStr.lower (PyStr.strip (get_text current)))
          || PyStr.contains "see also" (PyStr.lower (PyStr.strip (get_text current)))).
Proof.
  intros current. unfold heading_stops. f_equal.
  destruct (PyStr.contains "video solution" _) eqn:E; [|apply orb_false_r].
  rewrite (contains_end "video " "solution" _ E). reflexivity.
Qed.

Lemma two_words_decide n :
  region_boundary ["solution"; "see also"] n = region_boundary boundary_words n.
Proof.
  destruct n as [s | name a kids]; [reflexivity|].
  unfold region_boundary, heading_containing, boundary_words. cbn [existsb].
  rewrite !orb_false_r. f_equal. f_equal.
  destruct (PyStr.contains "video solution" _) eqn:E; [|now rewrite !orb_false_r].
  rewrite (contains_end "video " "solution" _ E). reflexivity.
Qed.

(** X16: the problem region ends on two words.  The region is the run of
    siblings before the first sibling that is an [h2] or [h3] whose
    stripped, lowered text contains "solution" or "see also", or a [span]
    whose identifier begins with "Solution": the test for "video
    solution" never decides where the region ends. *)
Theorem problem_region_ends_on_two_words :
  forall problem_heading,
    let siblings := from (first_sibling problem_heading) in
    exists kept dropped,
      map focus siblings = kept ++ dropped
      /\ problem_region problem_heading = kept
      /\ Forall (fun n => region_boundary ["solution"; "see also"] n = false) kept
      /\ (dropped = []
          \/ exists b rest,
               dropped = b :: rest /\ region_boundary ["solution"; "see also"] b = true).
Proof.
  intros h siblings.
  destruct (problem_section_boundary siblings) as (dropped & Hsplit & Hkept & Hdropped).
  exists (problem_section siblings), dropped.
  split; [exact Hsplit|]. split; [reflexivity|]. split.
  - eapply Forall_impl; [|exact Hkept]. intros n Hn. now rewrite two_words_decide.
  - destruct Hdropped as [-> | (b & rest & -> & Hb)]; [now left|].
    right. exists b, rest. now rewrite two_words_decide.
Qed.

(** ** More on the section segmenter *)

Section SolutionFacts.

Variable download_image : string -> nat -> string -> option string.
Variable markup : node -> string.

Abbreviation loop := (solutions_loop download_image markup).

Lemma sorted_add_last numbers i :
  StronglySorted lt numbers -> Forall (fun n => n < i) numbers ->
  StronglySorted lt (numbers ++ [i]).
Proof.
  induction 1 as [|n rest Hrest IH Hn]; simpl; intros Hall; [repeat constructor|].
  inversion Hall as [|x l Hx Hall']; subst.
  constructor; [apply IH, Hall'|].
  apply Forall_app. split; [exact Hn | repeat constructor; exact Hx].
Qed.

Lemma solutions_below_add bound solutions i content :
  solutions_below bound solutions -> bound <= i -> 1 <= i -> content <> [] ->
  solutions_below (S i) (solutions ++ [mkSolution i content]).
Proof.
  intros [Hsorted Hall] Hb Hi Hc. split.
  - rewrite map_app. simpl. apply sorted_add_last; [exact Hsorted|].
    apply Forall_forall. intros n Hn. apply in_map_iff in Hn as (s & <- & Hs).
    rewrite Forall_forall in Hall. destruct (Hall s Hs) as [H _]. lia.
  - apply Forall_app. split.
    + eapply Forall_impl; [|exact Hall]. simpl. intros s [Hs Hc']. split; [lia | exact Hc'].
    + repeat constructor; simpl; trivial; lia.
Qed.

Lemma solutions_below_more bound bound' solutions :
  solutions_below bound solutions -> bound <= bound' -> solutions_below bound' solutions.
Proof.
  intros [Hsorted Hall] Hb. split; [exact Hsorted|].
  eapply Forall_impl; [|exact Hall]. simpl. intros s [Hs Hc]. split; [lia | exact Hc].
Qed.

Lemma solutions_loop_below soup problem_num max_solutions todo :
  forall i solutions,
    1 <= i ->
    solutions_below i solutions ->
    solutions_below (i + todo) (loop soup problem_num max_solutions todo i solutions)
    /\ List.length (loop soup problem_num max_solutions todo i solutions)
       <= List.length solutions + todo.
Proof.
  induction todo as [|todo IH]; intros i solutions Hi Hinv; simpl.
  - split; [eapply solutions_below_more; [exact Hinv | lia] | lia].
  - assert (Hstay : solutions_below (i + S todo) solutions
                    /\ List.length solutions <= List.length solutions + S todo).
    { split; [eapply solutions_below_more; [exact Hinv | lia] | lia]. }
    destruct (find _ _) as [span|]; [|exact Hstay].
    destruct (solution_heading_of soup i span) as [heading|]; [|exact Hstay].
    destruct (solution_section _ _ _ _ _ _) as [|item items] eqn:E.
    + destruct (IH (S i) solutions) as [H1 H2];
        [lia | eapply solutions_below_more; [exact Hinv | lia] |].
      split; [replace (i + S todo) with (S i + todo) by lia; exact H1 | lia].
    + destruct (IH (S i) (solutions ++ [mkSolution i (item :: items)])) as [H1 H2];
        [lia | apply solutions_below_add with (bound := i); trivial; discriminate |].
      rewrite length_app in H2. simpl in H2.
      split; [replace (i + S todo) with (S i + todo) by lia; exact H1 | lia].
Qed.

(** X17: the solutions of a page come with numbers between 1 and
    [max_solutions] that increase strictly along the list, none of them has
    an empty content, and there are at most [max_solutions] of them. *)
Theorem solutions_are_numbered_in_order :
  forall soup problem_num max_solutions,
    let solutions := extract_solutions download_image markup soup problem_num max_solutions in
    StronglySorted lt (map sol_number solutions)
    /\ Forall (fun s => 1 <= sol_number s <= max_solutions /\ sol_content s <> []) solutions
    /\ List.length solutions <= max_solutions.
Proof.
  intros soup pn max solutions. subst solutions. unfold extract_solutions.
  destruct (solutions_loop_below soup pn max max 1 []) as [[Hsorted Hall] Hlen];
    [lia | split; constructor |].
  split; [exact Hsorted|]. split; [|exact Hlen].
  eapply Forall_impl; [|exact Hall]. simpl. intros s [Hs Hc]. split; [lia | exact Hc].
Qed.

Lemma solutions_loop_gap soup problem_num max_solutions k todo :
  find (named_with "span" "id" ("Solution_" ++ PyStr.of_nat k)) (root soup) = None ->
  forall i solutions,
    i <= k ->
    Forall (fun s => sol_number s < k) solutions ->
    Forall (fun s => sol_number s < k)
           (loop soup problem_num max_solutions todo i solutions).
Proof.
  intros Hgap. induction todo as [|todo IH]; intros i solutions Hi Hall;
    cbn [solutions_loop]; [exact Hall|].
  destruct (Nat.eq_dec i k) as [-> | Hne]; [rewrite Hgap; exact Hall|].
  destruct (find (named_with "span" "id" ("Solution_" ++ PyStr.of_nat i)%string) (root soup))
    as [span|]; [|exact Hall].
  destruct (solution_heading_of soup i span) as [heading|]; [|exact Hall].
  apply IH; [lia|].
  destruct (solution_section _ _ _ _ _ _); [exact Hall|].
  apply Forall_app. split; [exact Hall|]. repeat constructor. simpl. lia.
Qed.

(** X18: a gap ends the search at any index.  When no span has the
    identifier [Solution_k], every solution returned has a number below
    [k], whatever anchors follow and whatever the cap; without a
    [Solution_1] anchor there is no solution at all. *)
Theorem missing_anchor_bounds_the_solutions :
  forall soup problem_num max_solutions k,
    find (named_with "span" "id" ("Solution_" ++ PyStr.of_nat k)) (root soup) = None ->
    1 <= k ->
    Forall (fun s => sol_number s < k)
           (extract_solutions download_image markup soup problem_num max_solutions)
    /\ (k = 1 -> extract_solutions download_image markup soup problem_num max_solutions = []).
Proof.
  intros soup pn max k Hgap Hk. unfold extract_solutions. split.
  - apply solutions_loop_gap with (k := k); trivial.
  - intros ->. destruct max as [|todo]; [reflexivity|]. cbn [solutions_loop].
    rewrite Hgap. reflexivity.
Qed.

End SolutionFacts.

Lemma missing_anchor_bounds_the_solutions_witness :
  find (named_with "span" "id" ("Solution_" ++ PyStr.of_nat 2)) (root page_with_gap) = None
  /\ 1 <= 2
  /\ Forall (fun s => sol_number s < 2)
            (extract_solutions saved open_tag page_with_gap 5 3).
Proof.
  split; [reflexivity|]. split; [lia|].
  apply (missing_anchor_bounds_the_solutions saved open_tag page_with_gap 5 3 2);
    [reflexivity | lia].
Defined.

Section RegionFacts.

Lemma tags_after_tags nm a before after up :
  Forall (fun l => is_tag (focus l) = true) (tags_after nm a before after up).
Proof.
  revert before. induction after as [|c rest IH]; intros before; simpl; [constructor|].
  apply Forall_app. split; [|apply IH].
  destruct (is_tag c) eqn:E; repeat constructor. exact E.
Qed.

Lemma find_next_siblings_tags l :
  Forall (fun x => is_tag (focus x) = true) (find_next_siblings l).
Proof.
  unfold find_next_siblings. destruct (above l) as [|f up]; [constructor|].
  apply tags_after_tags.
Qed.

Lemma from_next_sibling_tags l :
  Forall (fun x => is_tag (focus x) = true) (from (find_next_sibling l)).
Proof.
  unfold find_next_sibling, from.
  pose proof (find_next_siblings_tags l) as H.
  destruct (find_next_siblings l) as [|x rest]; simpl; [constructor|].
  inversion H; subst. constructor; [trivial | apply find_next_siblings_tags].
Qed.

Lemma problem_section_within siblings n :
  In n (problem_section siblings) -> In n (map focus siblings).
Proof.
  induction siblings as [|cur later IH]; simpl; [trivial|].
  destruct (problem_stops (focus cur)); [intros []|].
  intros [<- | H]; [now left | right; apply IH, H].
Qed.

(** X19: the problem region is made of tags only.  A string that lies
    between the siblings, directly under their parent, is never collected:
    text outside every tag does not reach the content of the problem. *)
Theorem problem_region_holds_tags_only :
  forall problem_heading,
    Forall (fun n => is_tag n = true) (problem_region problem_heading).
Proof.
  intros h. apply Forall_forall. intros n Hn.
  unfold problem_region in Hn. apply problem_section_within in Hn.
  apply in_map_iff in Hn as (l & <- & Hl).
  assert (H : Forall (fun x => is_tag (focus x) = true) (from (first_sibling h))).
  { unfold first_sibling. destruct (negb _); apply from_next_sibling_tags. }
  rewrite Forall_forall in H. apply H, Hl.
Qed.

End RegionFacts.

(** ** The image resolver *)

Section DownloadFacts.

Variable urljoin : string -> string -> string.
Variable url_ext : string -> string.
Variable hash : string -> Z.
Variable transferred : string -> string -> bool.
Variable markup : node -> string.

Abbreviation resolver := (download_image urljoin url_ext hash transferred).

Abbreviation requested := (requested_url urljoin).

Lemma download_image_path img_url problem_num img_type local_path :
  resolver img_url problem_num img_type = Some local_path ->
  exists n ext,
    local_path = ("images/problem_" ++ PyStr.of_nat problem_num ++ "_" ++ img_type ++ "_"
                  ++ PyStr.of_nat n ++ ext)%string
    /\ (Z.of_nat n < 10000)%Z /\ ext <> EmptyString
    /\ n = Z.to_nat (Z.modulo (hash (requested img_url)) 10000)
    /\ ext = (if PyStr.truthy (url_ext (requested img_url))
              then url_ext (requested img_url) else ".png").
Proof.
  unfold download_image. fold (requested img_url).
  set (u := requested img_url).
  destruct (transferred u _); [|discriminate].
  intros H. injection H as <-.
  exists (Z.to_nat (Z.modulo (hash u) 10000)),
         (if PyStr.truthy (url_ext u) then url_ext u else ".png").
  split; [reflexivity|]. split; [|split; [|split; reflexivity]].
  - pose proof (Z.mod_pos_bound (hash u) 10000 eq_refl) as Hb.
    rewrite Z2Nat.id; lia.
  - destruct (PyStr.truthy (url_ext u)) eqn:E; [apply truthy_not_empty, E | discriminate].
Qed.


(** X21: the local name of an image depends on its URL only through the
    hash of the requested URL modulo 10000 and through its extension.  Two
    images of one problem and one type whose requested URLs agree on both
    are stored under the same path, whatever the URLs are. *)
Theorem images_with_equal_hash_share_a_path :
  forall url1 url2 problem_num img_type path1 path2,
    resolver url1 problem_num img_type = Some path1 ->
    resolver url2 problem_num img_type = Some path2 ->
    Z.modulo (hash (requested url1)) 10000 = Z.modulo (hash (requested url2)) 10000 ->
    (if PyStr.truthy (url_ext (requested url1)) then url_ext (requested url1) else ".png")
    = (if PyStr.truthy (url_ext (requested url2)) then url_ext (requested url2) else ".png") ->
    path1 = path2.
Proof.
  intros url1 url2 pn it p1 p2 H1 H2 Hh He.
  apply download_image_path in H1 as (n1 & e1 & -> & _ & _ & -> & ->).
  apply download_image_path in H2 as (n2 & e2 & -> & _ & _ & -> & ->).
  rewrite Hh, He. reflexivity.
Qed.

End DownloadFacts.


Lemma images_with_equal_hash_share_a_path_witness :
  download_image join_plain png_ext length_hash transfers "http://a.org/x.png" 3 "problem"
  = Some "images/problem_3_problem_18.png"
  /\ download_image join_plain png_ext length_hash transfers "http://b.org/y.png" 3 "problem"
     = Some "images/problem_3_problem_18.png"
  /\ "images/problem_3_problem_18.png" = "images/problem_3_problem_18.png".
Proof.
  split; [vm_compute; reflexivity|]. split; [vm_compute; reflexivity|].
  apply (images_with_equal_hash_share_a_path join_plain png_ext length_hash transfers
           "http://a.org/x.png" "http://b.org/y.png" 3 "problem");
    vm_compute; reflexivity.
Defined.
